(** * Optical-flow datasets of torchvision ([torchvision/datasets/_optical_flow.py])

    A shallow embedding of the module: the [FlowDataset] base class, its
    three variants [Sintel], [KittiFlow] and [FlyingChairs], and the two
    flow-file readers [_read_flo] and
    [_read_16bits_png_with_flow_and_valid_mask].

    Python objects are records, methods are computations in a small
    state-and-exception monad over the instance, exceptions are values of
    [exn].  The file system and the external decoders (PIL, the PNG decoder,
    [numpy.loadtxt]) are the fields of a [FileSystem] record: every theorem
    holds for every file system.  float32 data is kept as 32-bit patterns,
    with IEEE arithmetic taken from the Standard Library's [SpecFloat]. *)

From Stdlib Require Import ZArith List String Ascii Strings.Byte Bool Lia.
From Stdlib Require Import QArith Permutation Sorted.
From Stdlib Require Import Floats.SpecFloat.
Import ListNotations.

Open Scope string_scope.
Open Scope list_scope.
Open Scope Z_scope.

(** ** Exceptions and results *)

Inductive exn : Type :=
| ValueError (msg : string)
| FileNotFoundError (msg : string)
| IndexError (msg : string)
| TypeError (msg : string)
| OverflowError (msg : string)
| OSError (msg : string).

Inductive result (A : Type) : Type :=
| Ok (a : A)
| Raise (e : exn).

Arguments Ok {A} a.
Arguments Raise {A} e.

Definition is_IndexError {A : Type} (r : result A) : Prop :=
  exists msg, r = Raise (IndexError msg).

(** ** The monad of methods: state [S] (the instance) and exceptions.
    A raised exception keeps the state reached so far, as in Python. *)

Definition M (S A : Type) : Type := S -> result A * S.

Definition ret {S A : Type} (a : A) : M S A := fun s => (Ok a, s).

Definition bind {S A B : Type} (c : M S A) (k : A -> M S B) : M S B :=
  fun s =>
    match c s with
    | (Ok a, s') => k a s'
    | (Raise e, s') => (Raise e, s')
    end.

Definition raise {S A : Type} (e : exn) : M S A := fun s => (Raise e, s).

Definition lift {S A : Type} (r : result A) : M S A := fun s => (r, s).

Definition modify {S : Type} (f : S -> S) : M S unit := fun s => (Ok tt, f s).

Declare Scope monad_scope.
Delimit Scope monad_scope with monad.
Notation "x <- c ;; k" := (bind c (fun x => k))
  (at level 100, c at next level, right associativity) : monad_scope.
Notation "c ;; k" := (bind c (fun _ => k))
  (at level 100, right associativity) : monad_scope.
Open Scope monad_scope.

(** [for x in l: body(x)] *)
Fixpoint for_ {S B : Type} (l : list B) (body : B -> M S unit) : M S unit :=
  match l with
  | [] => ret tt
  | x :: t => body x ;; for_ t body
  end.

(** ** Python built-ins used by the module *)

Definition len {A : Type} (l : list A) : Z := Z.of_nat (List.length l).

(** [range(n)]: empty when [n <= 0]. *)
Definition range (n : Z) : list Z := map Z.of_nat (seq 0 (Z.to_nat n)).

(** [l[i]] on a sequence: a negative index counts from the end, an index
    outside [-len, len) raises IndexError. *)
Definition seq_getitem {A : Type} (msg : string) (l : list A) (i : Z) : result A :=
  let j := if i <? 0 then i + len l else i in
  if (j <? 0) || (len l <=? j) then Raise (IndexError msg)
  else match nth_error l (Z.to_nat j) with
       | Some a => Ok a
       | None => Raise (IndexError msg)
       end.

Definition list_getitem {A : Type} : list A -> Z -> result A :=
  seq_getitem "list index out of range".

(** [sorted] on strings: the increasing rearrangement for the code-point
    order, which is the byte order of [String.leb]. *)
Fixpoint insert (x : string) (l : list string) : list string :=
  match l with
  | [] => [x]
  | y :: t => if String.leb x y then x :: l else y :: insert x t
  end.

Definition sorted (l : list string) : list string := fold_right insert [] l.

Definition zip {A B : Type} : list A -> list B -> list (A * B) := @combine A B.

(** [Path(a) / b], as the string [str] gives back. *)
Definition Path_div (a b : string) : string := (a ++ "/" ++ b)%string.
Notation "a // b" := (Path_div a b) (at level 40, left associativity).

(** ** float32 *)

Module Float32.

Definition prec : Z := 24.
Definition emax : Z := 128.

(** The IEEE 754 binary32 value of a 32-bit pattern. *)
Definition of_bits (w : Z) : spec_float :=
  let s := Z.testbit w 31 in
  let e := Z.land (Z.shiftr w 23) 255 in
  let m := Z.land w 8388607 in
  if e =? 0 then
    match m with
    | Zpos p => S754_finite s p (-149)
    | _ => S754_zero s
    end
  else if e =? 255 then
    (if m =? 0 then S754_infinity s else S754_nan)
  else
    match m + 8388608 with
    | Zpos p => S754_finite s p (e - 150)
    | _ => S754_nan
    end.

Definition sign_bit (s : bool) : Z := if s then 2147483648 else 0.

(** The 32-bit pattern of a binary32 value (the quiet NaN for NaN). *)
Definition to_bits (x : spec_float) : Z :=
  match x with
  | S754_zero s => sign_bit s
  | S754_infinity s => sign_bit s + 2139095040
  | S754_nan => 2143289344
  | S754_finite s m e =>
      if Zpos m <? 8388608 then sign_bit s + Zpos m
      else sign_bit s + Z.shiftl (e + 150) 23 + (Zpos m - 8388608)
  end.

(** Conversion of an integer, rounding to nearest even. *)
Definition of_int (z : Z) : spec_float := binary_normalize prec emax z 0 false.

Definition sub : spec_float -> spec_float -> spec_float := SFsub prec emax.
Definition div : spec_float -> spec_float -> spec_float := SFdiv prec emax.
Definition eqb : spec_float -> spec_float -> bool := SFeqb.

(** The rational a finite value stands for. *)
Definition to_Q (x : spec_float) : option Q :=
  match x with
  | S754_zero _ => Some 0%Q
  | S754_finite s m e =>
      let v := (inject_Z (Zpos m) * Qpower 2 e)%Q in
      Some (if s then Qopp v else v)
  | _ => None
  end.

Definition value_of_bits (w : Z) : option Q := to_Q (of_bits w).

(** The literal [202021.25], which is 12929360 / 64. *)
Definition f202021_25 : spec_float := S754_finite false 12929360 (-6).

End Float32.

(** ** Arrays *)

(** A numpy float32 array: its shape and its items in C order, each item a
    32-bit pattern. *)
Record ndarray : Type := { shape : list Z; data : list Z }.

(** A [(C, H, W)] integer tensor, as the PNG decoder returns it. *)
Record tensor : Type := { channels : nat; height : nat; width : nat; pixels : list Z }.

(** What [numpy.loadtxt] returns for a file of integers, one per line: it
    squeezes, so a file of one line gives a 0-dimensional array. *)
Inductive int_array : Type :=
| Array0 (x : Z)
| Array1 (xs : list Z).

Definition squeeze (entries : list Z) : int_array :=
  match entries with
  | [x] => Array0 x
  | _ => Array1 entries
  end.

(** [a[i]] on such an array. *)
Definition np_getitem (a : int_array) (i : Z) : result Z :=
  match a with
  | Array0 _ => Raise (IndexError "too many indices for array")
  | Array1 xs => seq_getitem "index is out of bounds for axis 0" xs i
  end.

Definition prod_dims (dims : list Z) : Z := fold_right Z.mul 1 dims.

(** [a.reshape(dims)] on a flat array: one negative dimension is inferred. *)
Definition np_reshape (items : list Z) (dims : list Z) : result ndarray :=
  let size := len items in
  let known := prod_dims (filter (fun d => 0 <=? d) dims) in
  match filter (fun d => d <? 0) dims with
  | [] =>
      if size =? known then Ok {| shape := dims; data := items |}
      else Raise (ValueError "cannot reshape array")
  | [_] =>
      if (known =? 0) || negb (size mod known =? 0)
      then Raise (ValueError "cannot reshape array")
      else Ok {| shape := map (fun d => if d <? 0 then size / known else d) dims;
                 data := items |}
  | _ => Raise (ValueError "can only specify one unknown dimension")
  end.

(** ** Reading a binary file *)

Definition le32 (b0 b1 b2 b3 : byte) : Z :=
  Z.of_N (Byte.to_N b0) + 256 * Z.of_N (Byte.to_N b1)
  + 65536 * Z.of_N (Byte.to_N b2) + 16777216 * Z.of_N (Byte.to_N b3).

Definition int32_of_bits (w : Z) : Z := if w <? 2147483648 then w else w - 4294967296.

(** At most [n] whole 4-byte little-endian items from the front of the
    stream; a last partial item is consumed and dropped. *)
Fixpoint read_items (n : nat) (f : list byte) : list Z * list byte :=
  match n with
  | O => ([], f)
  | S n' =>
      match f with
      | b0 :: b1 :: b2 :: b3 :: rest =>
          let (xs, r) := read_items n' rest in (le32 b0 b1 b2 b3 :: xs, r)
      | _ => ([], [])
      end
  end.

(** [np.fromfile(f, dtype, count)] for a 4-byte dtype, on the open file [f]
    (the state is what is left of the stream): the items read, as 32-bit
    patterns; a negative [count] reads all; a [count] that does not fit the
    C integer of the call is refused.  Running out of memory on a large
    [count] is not modelled. *)
Definition np_fromfile (count : Z) : M (list byte) (list Z) :=
  fun f =>
    if 9223372036854775807 <? count
    then (Raise (OverflowError "Python int too large to convert to C ssize_t"), f)
    else
      let (xs, r) := read_items (if count <? 0 then List.length f else Z.to_nat count) f in
      (Ok xs, r).

(** [int(a)] on an int32 array: defined on arrays of one item only. *)
Definition int_of_array (items : list Z) : result Z :=
  match items with
  | [w] => Ok (int32_of_bits w)
  | _ => Raise (TypeError "only size-1 arrays can be converted to Python scalars")
  end.

(** The truth value of the array [202021.25 != magic], [magic] holding at
    most one item: that of the comparison when there is one, False when
    the array is empty. *)
Definition magic_differs (magic : list Z) : bool :=
  match magic with
  | [] => false
  | w :: _ => negb (Float32.eqb Float32.f202021_25 (Float32.of_bits w))
  end.

(** ** Slices of arrays along the first axis *)

Definition row_size (a : ndarray) : nat := Z.to_nat (prod_dims (tl (shape a))).

(** The items of [a[k]], for [k] in range. *)
Definition nd_row (a : ndarray) (k : nat) : ndarray :=
  {| shape := tl (shape a);
     data := firstn (row_size a) (skipn (k * row_size a) (data a)) |}.

(** [a[k, ...]] for a literal [k >= 0]. *)
Definition nd_index0 (a : ndarray) (k : nat) : result ndarray :=
  match shape a with
  | [] => Raise (IndexError "too many indices")
  | d0 :: _ =>
      if d0 <=? Z.of_nat k then Raise (IndexError "index out of bounds for dimension 0")
      else Ok (nd_row a k)
  end.

(** [a[:k, ...]] for a literal [k >= 0]. *)
Definition nd_slice0 (a : ndarray) (k : nat) : ndarray :=
  match shape a with
  | [] => a
  | d0 :: rest =>
      let n := Nat.min k (Z.to_nat d0) in
      {| shape := Z.of_nat n :: rest; data := firstn (n * row_size a) (data a) |}
  end.

(** Item-wise float32 arithmetic with a Python integer scalar. *)
Definition f32_sub_scalar (a : ndarray) (z : Z) : ndarray :=
  {| shape := shape a;
     data := map (fun w => Float32.to_bits
                    (Float32.sub (Float32.of_bits w) (Float32.of_int z))) (data a) |}.

Definition f32_div_scalar (a : ndarray) (z : Z) : ndarray :=
  {| shape := shape a;
     data := map (fun w => Float32.to_bits
                    (Float32.div (Float32.of_bits w) (Float32.of_int z))) (data a) |}.

(** [t.to(torch.float32)] *)
Definition to_float32 (t : tensor) : ndarray :=
  {| shape := [Z.of_nat (channels t); Z.of_nat (height t); Z.of_nat (width t)];
     data := map (fun x => Float32.to_bits (Float32.of_int x)) (pixels t) |}.

(** The flow value the PNG reader gives for one raw 16-bit sample. *)
Definition decode_flow_sample (raw : Z) : Z :=
  Float32.to_bits
    (Float32.div
       (Float32.of_bits
          (Float32.to_bits
             (Float32.sub (Float32.of_bits (Float32.to_bits (Float32.of_int raw)))
                          (Float32.of_int (2 ^ 15)))))
       (Float32.of_int 64)).

(** The classes of the module. *)
Inductive variant : Type := Sintel | KittiFlow | FlyingChairs.

(** The class attribute: [False] in [FlowDataset], overridden by [KittiFlow]. *)
Definition _has_builtin_flow_mask (c : variant) : bool :=
  match c with
  | KittiFlow => true
  | _ => false
  end.

(** Modelled from the spec: [verify_str_arg] of [torchvision/datasets/utils.py]
    is not among the sources; the spec has an invalid split or pass name
    detected eagerly at construction by allow-list validation. *)
Definition verify_str_arg (value arg : string) (valid_values : list string) : result string :=
  if existsb (String.eqb value) valid_values then Ok value
  else Raise (ValueError ("Unknown value for argument " ++ arg)%string).

(** The test of FlyingChairs on a split-assignment value:
    [(split == "train" and split_id == 1) or (split == "val" and split_id == 2)]. *)
Definition split_wanted (split : string) (split_id : Z) : bool :=
  ((split =? "train")%string && (split_id =? 1))
  || ((split =? "val")%string && (split_id =? 2)).

Section Model.

(** PIL images, and the hidden state of a transform (a random generator,
    say): both opaque. *)
Context {Image TState : Type}.

(** Python values that flow through [__getitem__]. *)
#[warnings="-register-all"]
Inductive value : Type :=
| VNone
| VImage (i : Image)
| VArray (a : ndarray)
| VTuple (items : list value).

(** The file system and the decoders outside the module. [glob] gives the
    matches of a pattern in no particular order; [int_lines] the integers
    of a text file, one per line. *)
Record FileSystem : Type := {
  os_listdir : string -> result (list string);
  glob : string -> list string;
  os_path_exists : string -> bool;
  int_lines : string -> result (list Z);
  open_rb : string -> result (list byte);
  Image_open : string -> result Image;
  _read_png_16 : string -> result tensor
}.

Definition transform_fn : Type :=
  value -> value -> value -> value -> M TState value.

(** An instance: its class and its attributes. *)
Record FlowDataset : Type := {
  cls : variant;
  root : string;
  transforms : option transform_fn;
  _flow_list : list string;
  _image_list : list (list string)
}.

Variable fs : FileSystem.

(** [np.loadtxt(fname, dtype=np.int32)] *)
Definition np_loadtxt (fname : string) : result int_array :=
  match int_lines fs fname with
  | Ok entries => Ok (squeeze entries)
  | Raise e => Raise e
  end.

(** *** The readers *)

Definition _read_flo_stream : M (list byte) value :=
  magic <- np_fromfile 1 ;;
  if magic_differs magic
  then raise (ValueError "Magic number incorrect. Invalid .flo file")
  else
    ws <- np_fromfile 1 ;;
    w <- lift (int_of_array ws) ;;
    hs <- np_fromfile 1 ;;
    h <- lift (int_of_array hs) ;;
    items <- np_fromfile (2 * w * h) ;;
    a <- lift (np_reshape items [2; h; w]) ;;
    ret (VArray a).

Definition _read_flo (file_name : string) : result value :=
  match open_rb fs file_name with
  | Ok f => fst (_read_flo_stream f)
  | Raise e => Raise e
  end.

Definition _read_16bits_png_with_flow_and_valid_mask (file_name : string) : result value :=
  match _read_png_16 fs file_name with
  | Raise e => Raise e
  | Ok t =>
      let flow_and_valid := to_float32 t in
      let flow := nd_slice0 flow_and_valid 2 in
      match nd_index0 flow_and_valid 2 with
      | Raise e => Raise e
      | Ok valid =>
          let flow := f32_div_scalar (f32_sub_scalar flow (2 ^ 15)) 64 in
          Ok (VTuple [VArray flow; VArray valid])
      end
  end.

Definition _read_img (file_name : string) : result value :=
  match Image_open fs file_name with
  | Ok i => Ok (VImage i)
  | Raise e => Raise e
  end.

(** [_read_flow], an abstract method: each class picks its reader. *)
Definition _read_flow (c : variant) (file_name : string) : result value :=
  match c with
  | Sintel => _read_flo file_name
  | KittiFlow => _read_16bits_png_with_flow_and_valid_mask file_name
  | FlyingChairs => _read_flo file_name
  end.

(** The items a value yields when it is unpacked. *)
Definition iter (v : value) : result (list value) :=
  match v with
  | VTuple items => Ok items
  | VArray a =>
      match shape a with
      | [] => Raise (TypeError "iteration over a 0-d array")
      | d0 :: _ => Ok (map (fun k => VArray (nd_row a k)) (seq 0 (Z.to_nat d0)))
      end
  | VNone => Raise (TypeError "cannot unpack non-iterable NoneType object")
  | VImage _ => Raise (TypeError "cannot unpack non-iterable Image object")
  end.

(** [a, b = v] *)
Definition unpack2 (v : value) : result (value * value) :=
  match iter v with
  | Ok [a; b] => Ok (a, b)
  | Ok _ => Raise (ValueError "wrong number of values to unpack")
  | Raise e => Raise e
  end.

(** [a, b, c, d = v] *)
Definition unpack4 (v : value) : result (value * value * value * value) :=
  match iter v with
  | Ok [a; b; c; d] => Ok (a, b, c, d)
  | Ok _ => Raise (ValueError "wrong number of values to unpack")
  | Raise e => Raise e
  end.

(** *** [FlowDataset] *)

(** The state while an instance is in use: the instance and the hidden
    state of its transform. *)
Definition world : Type := (FlowDataset * TState)%type.

Definition self_ : M world FlowDataset := fun s => (Ok (fst s), s).

Definition call_transform (t : transform_fn) (img1 img2 flow valid : value) : M world value :=
  fun s => let (r, ts) := t img1 img2 flow valid (snd s) in (r, (fst s, ts)).

Definition FlowDataset___getitem__ (index : Z) : M world value :=
  self <- self_ ;;
  pair1 <- lift (list_getitem (_image_list self) index) ;;
  name1 <- lift (list_getitem pair1 0) ;;
  img1 <- lift (_read_img name1) ;;
  pair2 <- lift (list_getitem (_image_list self) index) ;;
  name2 <- lift (list_getitem pair2 1) ;;
  img2 <- lift (_read_img name2) ;;
  fv <- match _flow_list self with
        | _ :: _ =>
            name <- lift (list_getitem (_flow_list self) index) ;;
            flow <- lift (_read_flow (cls self) name) ;;
            if _has_builtin_flow_mask (cls self)
            then lift (unpack2 flow)
            else ret (flow, VNone)
        | [] => ret (VNone, VNone)
        end ;;
  r <- match transforms self with
       | Some t =>
           out <- call_transform t img1 img2 (fst fv) (snd fv) ;;
           lift (unpack4 out)
       | None => ret (img1, img2, fst fv, snd fv)
       end ;;
  let '(img1, img2, flow, valid) := r in
  if _has_builtin_flow_mask (cls self)
  then ret (VTuple [img1; img2; flow; valid])
  else ret (VTuple [img1; img2; flow]).

(** [Sintel], [KittiFlow] and [FlyingChairs] override [__getitem__] only
    to document it: each calls the method above. *)

Definition FlowDataset___len__ : M world Z :=
  self <- self_ ;;
  ret (len (_image_list self)).

(** Attribute assignments *)
Definition set_root (r : string) (d : FlowDataset) : FlowDataset :=
  {| cls := cls d; root := r; transforms := transforms d;
     _flow_list := _flow_list d; _image_list := _image_list d |}.

Definition set_transforms (t : option transform_fn) (d : FlowDataset) : FlowDataset :=
  {| cls := cls d; root := root d; transforms := t;
     _flow_list := _flow_list d; _image_list := _image_list d |}.

Definition set_flow_list (l : list string) (d : FlowDataset) : FlowDataset :=
  {| cls := cls d; root := root d; transforms := transforms d;
     _flow_list := l; _image_list := _image_list d |}.

Definition set_image_list (l : list (list string)) (d : FlowDataset) : FlowDataset :=
  {| cls := cls d; root := root d; transforms := transforms d;
     _flow_list := _flow_list d; _image_list := l |}.

(** [self._flow_list += l] and [self._image_list += l] *)
Definition iadd_flow_list (l : list string) : M FlowDataset unit :=
  modify (fun d => set_flow_list (_flow_list d ++ l) d).

Definition iadd_image_list (l : list (list string)) : M FlowDataset unit :=
  modify (fun d => set_image_list (_image_list d ++ l) d).

(** Modelled from the spec: [VisionDataset.__init__] of
    [torchvision/datasets/vision.py] is not among the sources; the spec
    has the instance own a reference to the root directory. *)
Definition VisionDataset___init__ (root : string) : M FlowDataset unit :=
  modify (set_root root).

Definition FlowDataset___init__ (root : string) (transforms : option transform_fn)
  : M FlowDataset unit :=
  VisionDataset___init__ root ;;
  modify (set_transforms transforms) ;;
  modify (set_flow_list []) ;;
  modify (set_image_list []).

(** *** [Sintel] *)

Definition Sintel___init__ (root split pass_name : string)
    (transforms : option transform_fn) : M FlowDataset unit :=
  FlowDataset___init__ root transforms ;;
  lift (verify_str_arg split "split" ["train"; "test"]) ;;
  lift (verify_str_arg pass_name "pass_name" ["clean"; "final"]) ;;
  let root := root // "Sintel" in
  let split_dir := if (split =? "train")%string then "training" else split in
  let image_root := root // split_dir // pass_name in
  let flow_root := root // "training" // "flow" in
  scenes <- lift (os_listdir fs image_root) ;;
  for_ scenes (fun scene =>
    let image_list := sorted (glob fs (image_root // scene // "*.png")) in
    for_ (range (len image_list - 1)) (fun i =>
      a <- lift (list_getitem image_list i) ;;
      b <- lift (list_getitem image_list (i + 1)) ;;
      iadd_image_list [[a; b]]) ;;
    if (split =? "train")%string
    then iadd_flow_list (sorted (glob fs (flow_root // scene // "*.flo")))
    else ret tt).

(** *** [KittiFlow] *)

Definition KittiFlow___init__ (root split : string)
    (transforms : option transform_fn) : M FlowDataset unit :=
  FlowDataset___init__ root transforms ;;
  lift (verify_str_arg split "split" ["train"; "test"]) ;;
  let root := root // "Kitti" // (split ++ "ing")%string in
  let images1 := sorted (glob fs (root // "image_2" // "*_10.png")) in
  let images2 := sorted (glob fs (root // "image_2" // "*_11.png")) in
  if match images1, images2 with _ :: _, _ :: _ => false | _, _ => true end
  then raise (FileNotFoundError
    "Could not find the Kitti flow images. Please make sure the directory structure is correct.")
  else
    for_ (zip images1 images2) (fun p =>
      iadd_image_list [[fst p; snd p]]) ;;
    if (split =? "train")%string
    then modify (set_flow_list (sorted (glob fs (root // "flow_occ" // "*_10.png"))))
    else ret tt.

(** *** [FlyingChairs] *)

(** The body of [for i in range(len(flows))]. *)
Definition FlyingChairs_loop_body (split : string) (split_list : int_array)
    (flows images : list string) (i : Z) : M FlowDataset unit :=
  split_id <- lift (np_getitem split_list i) ;;
  if split_wanted split split_id
  then
    f <- lift (list_getitem flows i) ;;
    iadd_flow_list [f] ;;
    a <- lift (list_getitem images (2 * i)) ;;
    b <- lift (list_getitem images (2 * i + 1)) ;;
    iadd_image_list [[a; b]]
  else ret tt.

Definition FlyingChairs___init__ (root split : string)
    (transforms : option transform_fn) : M FlowDataset unit :=
  FlowDataset___init__ root transforms ;;
  lift (verify_str_arg split "split" ["train"; "val"]) ;;
  let root := root // "FlyingChairs" in
  let images := sorted (glob fs (root // "data" // "*.ppm")) in
  let flows := sorted (glob fs (root // "data" // "*.flo")) in
  let split_file_name := "FlyingChairs_train_val.txt" in
  if negb (os_path_exists fs (root // split_file_name))
  then raise (FileNotFoundError
    "The FlyingChairs_train_val.txt file was not found - please download it from the dataset page (see docstring).")
  else
    split_list <- lift (np_loadtxt (root // split_file_name)) ;;
    for_ (range (len flows)) (FlyingChairs_loop_body split split_list flows images).

(** *** Instantiation: [cls(...)] makes a bare instance, runs [__init__]
    on it and gives the instance back unless [__init__] raised. *)

Definition bare (c : variant) : FlowDataset :=
  {| cls := c; root := EmptyString; transforms := None;
     _flow_list := []; _image_list := [] |}.

Definition instantiate (c : variant) (init : M FlowDataset unit) : result FlowDataset :=
  match init (bare c) with
  | (Ok _, d) => Ok d
  | (Raise e, _) => Raise e
  end.

Definition new_Sintel (root split pass_name : string) (transforms : option transform_fn) :=
  instantiate Sintel (Sintel___init__ root split pass_name transforms).

Definition new_KittiFlow (root split : string) (transforms : option transform_fn) :=
  instantiate KittiFlow (KittiFlow___init__ root split transforms).

Definition new_FlyingChairs (root split : string) (transforms : option transform_fn) :=
  instantiate FlyingChairs (FlyingChairs___init__ root split transforms).

End Model.

(** * Notions used to state the properties *)

(** The order [sorted] sorts by. *)
Definition str_le (a b : string) : Prop := String.leb a b = true.

Definition sum_Z (l : list Z) : Z := fold_right Z.add 0 l.

(** The pairing rule of Sintel in the spec's words: frame [i] with frame
    [i + 1], for [i] from [0] to [count - 2]. *)
Definition consecutive_pairs (frames : list string) : list (list string) :=
  map (fun i => [nth i frames EmptyString; nth (S i) frames EmptyString])
      (seq 0 (List.length frames - 1)).

(** Whether the split keeps flow position [i], and the positions below [n]
    it keeps, in increasing order. *)
Definition FC_wanted_at (split : string) (entries : list Z) (i : nat) : bool :=
  split_wanted split (nth i entries 0).

Definition kept (split : string) (entries : list Z) (n : nat) : list nat :=
  filter (FC_wanted_at split entries) (seq 0 n).

(** Whether step [i] of the loop of FlyingChairs stays inside the split
    list and the image list. *)
Definition FC_step_ok (split : string) (entries : list Z) (images : list string)
    (i : nat) : bool :=
  (i <? List.length entries)%nat
  && (if split_wanted split (nth i entries 0)
      then (2 * i + 1 <? List.length images)%nat else true).

(** What FlyingChairs needs to index without leaving its lists. *)
Definition FC_indexable (split : string) (entries : list Z) (flows images : list string) : Prop :=
  (List.length flows <= List.length entries)%nat
  /\ forall i, (i < List.length flows)%nat ->
       split_wanted split (nth i entries 0) = true ->
       (2 * i + 2 <= List.length images)%nat.

(** A 32-bit pattern that stands for the rational [q]. *)
Definition f32_is (w : Z) (q : Q) : Prop :=
  exists v, Float32.value_of_bits w = Some v /\ (v == q)%Q.

Definition f32_isb (w : Z) (q : Q) : bool :=
  match Float32.value_of_bits w with
  | Some v => Qeq_bool v q
  | None => false
  end.

(** The decoding rule of the flow PNG in the spec's words:
    [(raw - 2^15) / 64]. *)
Definition flow_of_raw (raw : Z) : Q := (inject_Z (raw - 2 ^ 15) / 64)%Q.

(** The integers [z], [z + 1], ... up to [z + n - 1], and the 16-bit samples. *)
Fixpoint count_from (n : nat) (z : Z) : list Z :=
  match n with
  | O => []
  | S n' => z :: count_from n' (z + 1)
  end.

Definition uint16_samples : list Z := count_from (Z.to_nat 65536) 0.

Section Notions.

Context {Image TState : Type}.
Variable fs : @FileSystem Image.

(** [size ()]: the value [__len__] returns. *)
Definition size (d : @FlowDataset Image TState) (ts : TState) : result Z :=
  fst (FlowDataset___len__ (d, ts)).

(** [get (index)]: the value [__getitem__] returns. *)
Definition get (d : @FlowDataset Image TState) (ts : TState) (index : Z) : result value :=
  fst (FlowDataset___getitem__ fs index (d, ts)).

(** The frame files of a Sintel scene as the glob finds them, the frames
    in sorted order, and the sorted flow files of the scene. *)
Definition Sintel_png (root split pass_name scene : string) : list string :=
  let split_dir := if (split =? "train")%string then "training" else split in
  glob fs (root // "Sintel" // split_dir // pass_name // scene // "*.png").

Definition Sintel_frames (root split pass_name scene : string) : list string :=
  sorted (Sintel_png root split pass_name scene).

Definition Sintel_flows (root scene : string) : list string :=
  sorted (glob fs (root // "Sintel" // "training" // "flow" // scene // "*.flo")).

Definition Sintel_scenes (root split pass_name : string) : result (list string) :=
  let split_dir := if (split =? "train")%string then "training" else split in
  os_listdir fs (root // "Sintel" // split_dir // pass_name).

(** What a glob of KittiFlow finds under [<root>/Kitti/<split>ing/<sub>]. *)
Definition Kitti_glob (root split sub pattern : string) : list string :=
  glob fs (root // "Kitti" // (split ++ "ing")%string // sub // pattern).

(** The sorted images and flow files of FlyingChairs, and its split file. *)
Definition FC_images (root : string) : list string :=
  sorted (glob fs (root // "FlyingChairs" // "data" // "*.ppm")).

Definition FC_flows (root : string) : list string :=
  sorted (glob fs (root // "FlyingChairs" // "data" // "*.flo")).

Definition FC_split_file (root : string) : string :=
  root // "FlyingChairs" // "FlyingChairs_train_val.txt".

(** The instance after [FlowDataset.__init__]. *)
Definition fresh (c : variant) (root : string) (tr : option transform_fn)
  : @FlowDataset Image TState :=
  {| cls := c; root := root; transforms := tr; _flow_list := []; _image_list := [] |}.

(** The instances the three constructors build, in closed form. *)
Definition Sintel_built (root split pass_name : string) (tr : option transform_fn)
    (scenes : list string) : @FlowDataset Image TState :=
  {| cls := Sintel; root := root; transforms := tr;
     _flow_list :=
       if (split =? "train")%string then flat_map (Sintel_flows root) scenes else [];
     _image_list :=
       flat_map (fun scene =>
         consecutive_pairs (Sintel_frames root split pass_name scene)) scenes |}.

Definition Kitti_built (root split : string) (tr : option transform_fn)
  : @FlowDataset Image TState :=
  {| cls := KittiFlow; root := root; transforms := tr;
     _flow_list :=
       if (split =? "train")%string
       then sorted (Kitti_glob root split "flow_occ" "*_10.png") else [];
     _image_list :=
       map (fun p => [fst p; snd p])
         (zip (sorted (Kitti_glob root split "image_2" "*_10.png"))
              (sorted (Kitti_glob root split "image_2" "*_11.png"))) |}.

Definition FC_built (root split : string) (tr : option transform_fn) (entries : list Z)
  : @FlowDataset Image TState :=
  let ks := kept split entries (List.length (FC_flows root)) in
  {| cls := FlyingChairs; root := root; transforms := tr;
     _flow_list := map (fun i => nth i (FC_flows root) EmptyString) ks;
     _image_list :=
       map (fun i => [nth (2 * i) (FC_images root) EmptyString;
                      nth (2 * i + 1) (FC_images root) EmptyString]) ks |}.

(** The invariant of the data model: no flow at all, or one per pair. *)
Definition paired (d : @FlowDataset Image TState) : Prop :=
  _flow_list d = [] \/ List.length (_flow_list d) = List.length (_image_list d).

(** The instances each class can build. *)
Inductive built_by : variant -> @FlowDataset Image TState -> Prop :=
| built_Sintel root split pass_name tr d :
    new_Sintel fs root split pass_name tr = Ok d -> built_by Sintel d
| built_KittiFlow root split tr d :
    new_KittiFlow fs root split tr = Ok d -> built_by KittiFlow d
| built_FlyingChairs root split tr d :
    new_FlyingChairs fs root split tr = Ok d -> built_by FlyingChairs d.

(** The constructions that give one flow per image pair or no flow:
    FlyingChairs; the test splits; Sintel "train" when every scene has as
    many [.flo] files as consecutive frame pairs; KittiFlow "train" when
    [flow_occ] has as many files as there are zipped image pairs. *)
Inductive well_paired : @FlowDataset Image TState -> Prop :=
| wp_FlyingChairs root split tr d :
    new_FlyingChairs fs root split tr = Ok d -> well_paired d
| wp_Sintel_test root pass_name tr d :
    new_Sintel fs root "test" pass_name tr = Ok d -> well_paired d
| wp_Sintel_train root pass_name tr scenes d :
    Sintel_scenes root "train" pass_name = Ok scenes ->
    (forall scene, In scene scenes ->
       List.length (Sintel_flows root scene)
       = List.length (consecutive_pairs (Sintel_frames root "train" pass_name scene))) ->
    new_Sintel fs root "train" pass_name tr = Ok d -> well_paired d
| wp_KittiFlow_test root tr d :
    new_KittiFlow fs root "test" tr = Ok d -> well_paired d
| wp_KittiFlow_train root tr d :
    len (Kitti_glob root "train" "flow_occ" "*_10.png")
    = Z.min (len (Kitti_glob root "train" "image_2" "*_10.png"))
            (len (Kitti_glob root "train" "image_2" "*_11.png")) ->
    new_KittiFlow fs root "train" tr = Ok d -> well_paired d.

(** Computations that leave the instance, or the whole state, as it is. *)
Definition keeps_self {A : Type} (c : M (@world Image TState) A) : Prop :=
  forall s, fst (snd (c s)) = fst s.

Definition keeps_world {A : Type} (c : M (@world Image TState) A) : Prop :=
  forall s, snd (c s) = s.

(** Computations whose returned values all satisfy [P]. *)
Definition returns_only {S A : Type} (P : A -> Prop) (c : M S A) : Prop :=
  forall s a s', c s = (Ok a, s') -> P a.

(** A tuple of [n] items. *)
Definition tuple_of_arity (n : nat) (v : @value Image) : Prop :=
  exists items, v = VTuple items /\ List.length items = n.

End Notions.

(** * A file system in memory, for examples *)

Fixpoint assoc {A : Type} (k : string) (l : list (string * A)) : option A :=
  match l with
  | [] => None
  | (k', v) :: t => if (k =? k')%string then Some v else assoc k t
  end.

Record disk : Type := {
  dirs : list (string * list string);
  matches : list (string * list string);
  int_files : list (string * list Z);
  bin_files : list (string * list byte);
  png_files : list (string * tensor)
}.

Definition no_such_file {A : Type} (p : string) : result A :=
  Raise (FileNotFoundError ("No such file or directory: " ++ p)%string).

(** An image is stood for by the name of the file it was opened from. *)
Definition mount (dk : disk) : @FileSystem string :=
  {| os_listdir := fun p =>
       match assoc p (dirs dk) with Some l => Ok l | None => no_such_file p end;
     glob := fun p =>
       match assoc p (matches dk) with Some l => l | None => [] end;
     os_path_exists := fun p =>
       match assoc p (int_files dk) with Some _ => true | None => false end;
     int_lines := fun p =>
       match assoc p (int_files dk) with Some l => Ok l | None => no_such_file p end;
     open_rb := fun p =>
       match assoc p (bin_files dk) with Some l => Ok l | None => no_such_file p end;
     Image_open := fun p => Ok p;
     _read_png_16 := fun p =>
       match assoc p (png_files dk) with Some t => Ok t | None => no_such_file p end |}.

(** A Sintel root with one scene directory that holds no frame. *)
Definition disk_empty_scene : disk :=
  {| dirs := [("data/Sintel/training/clean", ["alley_1"])];
     matches := []; int_files := []; bin_files := []; png_files := [] |}.


(** A [.flo] file of width 1 and height 1: the magic number [50 49 45 48],
    the two sizes, and the two float32 values 1.0 and -2.0. *)
Definition flo_1x1 : list byte :=
  [x50; x49; x45; x48;  x01; x00; x00; x00;  x01; x00; x00; x00;
   x00; x00; x80; x3f;  x00; x00; x00; xc0].

(** The same with its first byte changed. *)
Definition flo_bad_magic : list byte :=
  [x51; x49; x45; x48;  x01; x00; x00; x00;  x01; x00; x00; x00;
   x00; x00; x80; x3f;  x00; x00; x00; xc0].

(** A Sintel root with one scene of three frames and its two flow files,
    and a stray file that is no [.flo] file. *)
Definition disk_sintel : disk :=
  {| dirs := [("data/Sintel/training/clean", ["alley_1"])];
     matches :=
       [("data/Sintel/training/clean/alley_1/*.png",
         ["data/Sintel/training/clean/alley_1/frame_0003.png";
          "data/Sintel/training/clean/alley_1/frame_0001.png";
          "data/Sintel/training/clean/alley_1/frame_0002.png"]);
        ("data/Sintel/training/flow/alley_1/*.flo",
         ["data/Sintel/training/flow/alley_1/frame_0002.flo";
          "data/Sintel/training/flow/alley_1/frame_0001.flo"])];
     int_files := [];
     bin_files :=
       [("data/Sintel/training/flow/alley_1/frame_0001.flo", flo_1x1);
        ("data/Sintel/training/flow/alley_1/frame_0002.flo", flo_1x1);
        ("data/stray.flo", flo_bad_magic)];
     png_files := [] |}.

(** The same scene with one of its two flow files missing. *)
Definition disk_sintel_missing_flow : disk :=
  {| dirs := [("data/Sintel/training/clean", ["alley_1"])];
     matches :=
       [("data/Sintel/training/clean/alley_1/*.png",
         ["data/Sintel/training/clean/alley_1/frame_0003.png";
          "data/Sintel/training/clean/alley_1/frame_0001.png";
          "data/Sintel/training/clean/alley_1/frame_0002.png"]);
        ("data/Sintel/training/flow/alley_1/*.flo",
         ["data/Sintel/training/flow/alley_1/frame_0001.flo"])];
     int_files := [];
     bin_files := [("data/Sintel/training/flow/alley_1/frame_0001.flo", flo_1x1)];
     png_files := [] |}.

(** A flow PNG of one row and two columns, decoded: channels 0-1 hold the
    flow, channel 2 the mask. *)
Definition png_1x2 : tensor :=
  {| channels := 3; height := 1; width := 2;
     pixels := [32832; 32768;  32640; 0;  1; 0] |}.

(** A flow PNG of one pixel whose third channel holds the sample 2. *)
Definition png_mask_2 : tensor :=
  {| channels := 3; height := 1; width := 1; pixels := [32768; 32768; 2] |}.

(** A KittiFlow root with one image pair and its flow PNG, and the
    one-pixel PNG beside it. *)
Definition disk_kitti : disk :=
  {| dirs := [];
     matches :=
       [("data/Kitti/training/image_2/*_10.png",
         ["data/Kitti/training/image_2/000000_10.png"]);
        ("data/Kitti/training/image_2/*_11.png",
         ["data/Kitti/training/image_2/000000_11.png"]);
        ("data/Kitti/training/flow_occ/*_10.png",
         ["data/Kitti/training/flow_occ/000000_10.png"])];
     int_files := [];
     bin_files := [];
     png_files :=
       [("data/Kitti/training/flow_occ/000000_10.png", png_1x2);
        ("data/mask_2.png", png_mask_2)] |}.

(** A FlyingChairs root with two flows and their four images, and a split
    file of three entries. *)
Definition disk_chairs : disk :=
  {| dirs := [];
     matches :=
       [("data/FlyingChairs/data/*.ppm",
         ["data/FlyingChairs/data/00001_img1.ppm";
          "data/FlyingChairs/data/00001_img2.ppm";
          "data/FlyingChairs/data/00002_img1.ppm";
          "data/FlyingChairs/data/00002_img2.ppm"]);
        ("data/FlyingChairs/data/*.flo",
         ["data/FlyingChairs/data/00001_flow.flo";
          "data/FlyingChairs/data/00002_flow.flo"])];
     int_files := [("data/FlyingChairs/FlyingChairs_train_val.txt", [1; 2; 1])];
     bin_files :=
       [("data/FlyingChairs/data/00001_flow.flo", flo_1x1);
        ("data/FlyingChairs/data/00002_flow.flo", flo_1x1)];
     png_files := [] |}.

(** The instances built on these roots, with no transform. *)
Definition sintel_train : @FlowDataset string unit :=
  Sintel_built (mount disk_sintel) "data" "train" "clean" None ["alley_1"].

Definition kitti_train : @FlowDataset string unit :=
  Kitti_built (mount disk_kitti) "data" "train" None.

Definition chairs_train : @FlowDataset string unit :=
  FC_built (mount disk_chairs) "data" "train" None [1; 2; 1].


(** * Notions for the further properties *)

(** The layout of a [.flo] file: the magic number, the width and the
    height as little-endian 32-bit words, then the payload. *)
Definition flo_layout (f : list byte) (w h : Z) (payload : list byte) : Prop :=
  exists b0 b1 b2 b3 w0 w1 w2 w3 h0 h1 h2 h3,
    f = b0 :: b1 :: b2 :: b3 :: w0 :: w1 :: w2 :: w3 :: h0 :: h1 :: h2 :: h3 :: payload
    /\ le32 b0 b1 b2 b3 = 1212500304
    /\ int32_of_bits (le32 w0 w1 w2 w3) = w
    /\ int32_of_bits (le32 h0 h1 h2 h3) = h.

(** The [i]-th 4-byte item of a payload, as a 32-bit pattern. *)
Definition item_at (payload : list byte) (i : nat) : Z :=
  le32 (nth (4 * i) payload x00) (nth (4 * i + 1) payload x00)
       (nth (4 * i + 2) payload x00) (nth (4 * i + 3) payload x00).


(** The value the PNG reader gives for one raw sample of the mask channel. *)
Definition mask_sample (raw : Z) : Z := Float32.to_bits (Float32.of_int raw).


(** The same file system with every glob listing its matches in the
    opposite order. *)
Definition reversed_globs {Image : Type} (fs : @FileSystem Image) : @FileSystem Image :=
  {| os_listdir := os_listdir fs;
     glob := fun p => rev (glob fs p);
     os_path_exists := os_path_exists fs;
     int_lines := int_lines fs;
     open_rb := open_rb fs;
     Image_open := Image_open fs;
     _read_png_16 := _read_png_16 fs |}.


(** A [.flo] file of width 1 and height 1 cut after its first value, and
    one cut inside its header. *)
Definition flo_truncated : list byte :=
  [x50; x49; x45; x48;  x01; x00; x00; x00;  x01; x00; x00; x00;
   x00; x00; x80; x3f].

Definition flo_short : list byte := [x50; x49; x45; x48;  x01; x00].

(** A PNG of one pixel decoded with a single channel. *)
Definition png_gray : tensor :=
  {| channels := 1; height := 1; width := 1; pixels := [7] |}.

(** A root with damaged flow files, a one-channel PNG, and the "test"
    split of KittiFlow with two image pairs. *)
Definition disk_more : disk :=
  {| dirs := [];
     matches :=
       [("data/Kitti/testing/image_2/*_10.png",
         ["data/Kitti/testing/image_2/000001_10.png";
          "data/Kitti/testing/image_2/000000_10.png"]);
        ("data/Kitti/testing/image_2/*_11.png",
         ["data/Kitti/testing/image_2/000000_11.png";
          "data/Kitti/testing/image_2/000001_11.png"])];
     int_files := [];
     bin_files := [("data/truncated.flo", flo_truncated); ("data/short.flo", flo_short)];
     png_files := [("data/gray.png", png_gray)] |}.

Definition kitti_test : @FlowDataset string unit :=
  Kitti_built (mount disk_more) "data" "test" None.

Definition chairs_val : @FlowDataset string unit :=
  FC_built (mount disk_chairs) "data" "val" None [1; 2; 1].

(** The Sintel instance with its first flow path replaced by the stray
    file. *)
Definition sintel_stray : @FlowDataset string unit :=
  set_flow_list ["data/stray.flo"; "data/Sintel/training/flow/alley_1/frame_0002.flo"]
    sintel_train.

(** A transform that swaps the two images, and one that forgets the mask
    and returns three values. *)
Definition swap_images : @transform_fn string unit :=
  fun img1 img2 flow valid ts => (Ok (VTuple [img2; img1; flow; valid]), ts).



(** The Sintel instance built where one flow file is missing. *)
Definition sintel_missing_flow : @FlowDataset string unit :=
  Sintel_built (mount disk_sintel_missing_flow) "data" "train" "clean" None ["alley_1"].


(** * Properties *)

Section Properties.

Context {Image TState : Type}.
Variable fs : @FileSystem Image.


(** ** Python built-ins *)

Lemma insert_length (x : string) (l : list string) :
  List.length (insert x l) = S (List.length l).
Proof.
  induction l as [|y t IH]; simpl; [reflexivity|].
  destruct (String.leb x y); simpl; congruence.
Qed.

Lemma sorted_length (l : list string) : List.length (sorted l) = List.length l.
Proof.
  induction l as [|x t IH]; simpl; [reflexivity|].
  unfold sorted in *. now rewrite insert_length, IH.
Qed.

Lemma insert_perm (x : string) (l : list string) : Permutation (x :: l) (insert x l).
Proof.
  induction l as [|y t IH]; simpl; [apply Permutation_refl|].
  destruct (String.leb x y); [apply Permutation_refl|].
  eapply perm_trans; [apply perm_swap|]. now apply perm_skip.
Qed.

Lemma sorted_perm (l : list string) : Permutation l (sorted l).
Proof.
  induction l as [|x t IH]; simpl; [constructor|].
  eapply perm_trans; [apply perm_skip, IH|]. apply insert_perm.
Qed.

Lemma str_le_trans (a b c : string) : str_le a b -> str_le b c -> str_le a c.
Proof.
  unfold str_le, String.leb. intros Hab Hbc.
  destruct (String.compare a b) eqn:E1; try discriminate;
    destruct (String.compare b c) eqn:E2; try discriminate.
  - apply String.compare_eq_iff in E1. subst. now rewrite E2.
  - apply String.compare_eq_iff in E1. subst. now rewrite E2.
  - apply String.compare_eq_iff in E2. subst. now rewrite E1.
  - assert (H : String.compare a c = Lt); [|now rewrite H].
    revert b c E1 E2. induction a as [|x a IH]; intros [|y b] [|z c]; simpl;
      try discriminate; try reflexivity.
    destruct (Ascii.compare x y) eqn:Cxy; try discriminate;
      destruct (Ascii.compare y z) eqn:Cyz; try discriminate; intros H1 H2.
    + apply Ascii.compare_eq_iff in Cxy, Cyz. subst.
      unfold Ascii.compare at 1. rewrite N.compare_refl. eauto.
    + apply Ascii.compare_eq_iff in Cxy. subst. now rewrite Cyz.
    + apply Ascii.compare_eq_iff in Cyz. subst. now rewrite Cxy.
    + unfold Ascii.compare in *. rewrite N.compare_lt_iff in *.
      assert (H : (N_of_ascii x < N_of_ascii z)%N) by lia.
      apply N.compare_lt_iff in H. now rewrite H.
Qed.

Lemma insert_sorted (x : string) (l : list string) :
  StronglySorted str_le l -> StronglySorted str_le (insert x l).
Proof.
  induction 1 as [|y t Hs IH Hall]; simpl.
  - repeat constructor.
  - destruct (String.leb x y) eqn:E.
    + constructor; [now constructor|].
      constructor; [exact E|].
      eapply Forall_impl; [|exact Hall]. intros z Hz.
      eapply str_le_trans; eauto.
    + constructor; [exact IH|].
      eapply Permutation_Forall; [apply insert_perm|].
      constructor; [|exact Hall].
      destruct (String.leb_total x y) as [H|H]; [congruence|exact H].
Qed.

Lemma sorted_sorted (l : list string) : StronglySorted str_le (sorted l).
Proof.
  induction l as [|x t IH]; simpl; [constructor|]. now apply insert_sorted.
Qed.

Lemma seq_getitem_in_range {A : Type} (msg : string) (l : list A) (i : nat) (d : A) :
  (i < List.length l)%nat -> seq_getitem msg l (Z.of_nat i) = Ok (nth i l d).
Proof.
  intros Hi. unfold seq_getitem, len.
  destruct (Z.ltb_spec (Z.of_nat i) 0); [lia|].
  destruct (Z.ltb_spec (Z.of_nat i) 0); [lia|].
  destruct (Z.leb_spec (Z.of_nat (List.length l)) (Z.of_nat i)); [lia|]. simpl.
  rewrite Nat2Z.id.
  destruct (nth_error l i) eqn:E.
  - now rewrite (nth_error_nth _ _ d E).
  - apply nth_error_None in E. lia.
Qed.

Lemma seq_getitem_out_of_range {A : Type} (msg : string) (l : list A) (i : nat) :
  (List.length l <= i)%nat -> seq_getitem msg l (Z.of_nat i) = Raise (IndexError msg).
Proof.
  intros Hi. unfold seq_getitem, len.
  destruct (Z.ltb_spec (Z.of_nat i) 0); [lia|].
  destruct (Z.ltb_spec (Z.of_nat i) 0); [lia|].
  destruct (Z.leb_spec (Z.of_nat (List.length l)) (Z.of_nat i)); [reflexivity|lia].
Qed.

(** ** Attribute updates and loops *)

Lemma set_image_list_id (d : @FlowDataset Image TState) : set_image_list (_image_list d) d = d.
Proof. now destruct d. Qed.

Lemma set_flow_list_id (d : @FlowDataset Image TState) : set_flow_list (_flow_list d) d = d.
Proof. now destruct d. Qed.

Lemma for_zip_pairs (l : list (string * string)) (d : @FlowDataset Image TState) :
  for_ l (fun p => iadd_image_list [[fst p; snd p]]) d
  = (Ok tt, set_image_list (_image_list d ++ map (fun p => [fst p; snd p]) l) d).
Proof.
  revert d. induction l as [|p l IH]; intros d; simpl.
  - unfold ret. now rewrite app_nil_r, set_image_list_id.
  - unfold bind, iadd_image_list, modify. rewrite IH. simpl.
    now rewrite <- app_assoc.
Qed.

Lemma verify_str_arg_ok (v arg : string) (vs : list string) :
  In v vs -> verify_str_arg v arg vs = Ok v.
Proof.
  intros H. unfold verify_str_arg.
  assert (E : existsb (String.eqb v) vs = true).
  { apply existsb_exists. exists v. split; [exact H|apply String.eqb_refl]. }
  now rewrite E.
Qed.

(** ** KittiFlow *)

Lemma KittiFlow_new_unfold (root split : string) (tr : option (@transform_fn Image TState)) :
  new_KittiFlow fs root split tr
  = match verify_str_arg split "split" ["train"; "test"] with
    | Raise e => Raise e
    | Ok _ =>
        match sorted (Kitti_glob fs root split "image_2" "*_10.png"),
              sorted (Kitti_glob fs root split "image_2" "*_11.png") with
        | _ :: _, _ :: _ => Ok (Kitti_built fs root split tr)
        | _, _ => Raise (FileNotFoundError
            "Could not find the Kitti flow images. Please make sure the directory structure is correct.")
        end
    end.
Proof.
  unfold new_KittiFlow, instantiate, KittiFlow___init__.
  unfold bind at 1. simpl (FlowDataset___init__ _ _ _).
  unfold bind at 1. unfold lift at 1.
  destruct (verify_str_arg split "split" ["train"; "test"]); [|reflexivity].
  cbv zeta. unfold Kitti_built.
  fold (Kitti_glob fs root split "image_2" "*_10.png").
  fold (Kitti_glob fs root split "image_2" "*_11.png").
  fold (Kitti_glob fs root split "flow_occ" "*_10.png").
  destruct (sorted (Kitti_glob fs root split "image_2" "*_10.png")) as [|x1 s1] eqn:E1;
    [reflexivity|].
  destruct (sorted (Kitti_glob fs root split "image_2" "*_11.png")) as [|x2 s2] eqn:E2;
    [reflexivity|].
  unfold FlowDataset___init__, VisionDataset___init__, bind, modify.
  rewrite for_zip_pairs.
  now destruct (split =? "train")%string.
Qed.

Lemma sorted_nil_iff (l : list string) : sorted l = [] <-> l = [].
Proof.
  pose proof (sorted_length l) as H.
  destruct l, (sorted _); simpl in H; split; congruence.
Qed.

(** C5. Constructing KittiFlow (with a split the constructor accepts) on a
    root where the [image_2] glob gives no [_10] file or no [_11] file
    raises FileNotFoundError; where it gives both, construction succeeds
    and [size ()] is the number of zipped pairs, which is the number of
    [_10] files as soon as each of them has its [_11] file. *)
Theorem KittiFlow_missing_or_size (root split : string) (tr : option (@transform_fn Image TState)) :
  split = "train" \/ split = "test" ->
  let images1 := Kitti_glob fs root split "image_2" "*_10.png" in
  let images2 := Kitti_glob fs root split "image_2" "*_11.png" in
  (images1 = [] \/ images2 = [] ->
     exists msg, new_KittiFlow fs root split tr = Raise (FileNotFoundError msg))
  /\ (images1 <> [] -> images2 <> [] ->
      exists d, new_KittiFlow fs root split tr = Ok d
        /\ (forall ts, size d ts = Ok (Z.min (len images1) (len images2)))
        /\ ((List.length images1 <= List.length images2)%nat ->
            forall ts, size d ts = Ok (len images1))).
Proof.
  intros Hsplit images1 images2.
  rewrite KittiFlow_new_unfold.
  rewrite verify_str_arg_ok by (simpl; destruct Hsplit; auto).
  fold images1. fold images2.
  pose proof (sorted_nil_iff images1) as S1.
  pose proof (sorted_nil_iff images2) as S2.
  pose proof (sorted_length images1) as L1.
  pose proof (sorted_length images2) as L2.
  split.
  - intros Hempty.
    destruct (sorted images1), (sorted images2); try (eexists; reflexivity).
    destruct Hempty as [H|H]; [apply S1 in H|apply S2 in H]; discriminate.
  - intros N1 N2.
    destruct (sorted images1) as [|x1 s1] eqn:E1; [tauto|].
    destruct (sorted images2) as [|x2 s2] eqn:E2; [tauto|].
    eexists. split; [reflexivity|].
    unfold size, FlowDataset___len__, bind, self_, ret, Kitti_built.
    cbn [fst _image_list]. fold images1. fold images2.
    assert (Hlen :
      len (map (fun p : string * string => [fst p; snd p])
             (zip (sorted images1) (sorted images2)))
      = Z.min (len images1) (len images2)).
    { unfold len, zip. rewrite length_map, length_combine.
      rewrite !sorted_length. lia. }
    rewrite Hlen. split; [reflexivity|].
    intros Hle _. f_equal. unfold len. lia.
Qed.

(** ** Sintel *)

Lemma for_frame_pairs (l : list string) (m k : nat) (d : @FlowDataset Image TState) :
  (k + m < List.length l \/ m = 0)%nat ->
  for_ (map Z.of_nat (seq k m))
    (fun i =>
       a <- lift (list_getitem l i) ;;
       b <- lift (list_getitem l (i + 1)) ;;
       iadd_image_list [[a; b]]) d
  = (Ok tt,
     set_image_list
       (_image_list d
        ++ map (fun i => [nth i l EmptyString; nth (S i) l EmptyString]) (seq k m)) d).
Proof.
  revert k d. induction m as [|m IH]; intros k d Hk; simpl.
  - unfold ret. now rewrite app_nil_r, set_image_list_id.
  - unfold bind at 1. unfold bind at 1. unfold lift at 1, list_getitem.
    rewrite (seq_getitem_in_range _ l k EmptyString) by lia.
    unfold bind at 1. unfold lift at 1.
    replace (Z.of_nat k + 1) with (Z.of_nat (S k)) by lia.
    rewrite (seq_getitem_in_range _ l (S k) EmptyString) by lia.
    unfold iadd_image_list at 1, modify at 1.
    rewrite IH by lia. simpl. now rewrite <- app_assoc.
Qed.

Lemma range_pred_len (l : list string) :
  range (len l - 1) = map Z.of_nat (seq 0 (List.length l - 1)).
Proof.
  unfold range, len. f_equal. f_equal. lia.
Qed.

Lemma Sintel_scene_loop (root split pass_name : string) (scenes : list string) (d : @FlowDataset Image TState) :
  let split_dir := if (split =? "train")%string then "training" else split in
  let image_root := root // "Sintel" // split_dir // pass_name in
  let flow_root := root // "Sintel" // "training" // "flow" in
  for_ scenes (fun scene =>
    let image_list := sorted (glob fs (image_root // scene // "*.png")) in
    for_ (range (len image_list - 1)) (fun i =>
      a <- lift (list_getitem image_list i) ;;
      b <- lift (list_getitem image_list (i + 1)) ;;
      iadd_image_list [[a; b]]) ;;
    if (split =? "train")%string
    then iadd_flow_list (sorted (glob fs (flow_root // scene // "*.flo")))
    else ret tt) d
  = (Ok tt,
     set_image_list
       (_image_list d ++
        flat_map (fun scene =>
          consecutive_pairs (Sintel_frames fs root split pass_name scene)) scenes)
       (set_flow_list
          (_flow_list d ++
           (if (split =? "train")%string
            then flat_map (Sintel_flows fs root) scenes else []))
          d)).
Proof.
  intros split_dir image_root flow_root. revert d.
  induction scenes as [|scene scenes IH]; intros d.
  - simpl. unfold ret. destruct d; unfold set_image_list, set_flow_list; simpl.
    rewrite !app_nil_r. now destruct (split =? "train")%string; rewrite ?app_nil_r.
  - cbn [for_]. unfold bind at 1. cbv zeta. unfold bind at 1.
    rewrite range_pred_len, for_frame_pairs by lia.
    fold (consecutive_pairs (sorted (glob fs (image_root // scene // "*.png")))).
    destruct (split =? "train")%string eqn:Etrain.
    + unfold iadd_flow_list at 1, modify at 1. rewrite IH. f_equal.
      destruct d; unfold set_image_list, set_flow_list; simpl.
      unfold Sintel_frames, Sintel_png, Sintel_flows. rewrite Etrain.
      now rewrite <- !app_assoc.
    + unfold ret at 1. rewrite IH. f_equal.
      destruct d; unfold set_image_list, set_flow_list; simpl.
      unfold Sintel_frames, Sintel_png. rewrite Etrain.
      now rewrite <- !app_assoc.
Qed.

Lemma Sintel_new_unfold (root split pass_name : string) (tr : option (@transform_fn Image TState)) :
  new_Sintel fs root split pass_name tr
  = match verify_str_arg split "split" ["train"; "test"] with
    | Raise e => Raise e
    | Ok _ =>
        match verify_str_arg pass_name "pass_name" ["clean"; "final"] with
        | Raise e => Raise e
        | Ok _ =>
            match Sintel_scenes fs root split pass_name with
            | Raise e => Raise e
            | Ok scenes => Ok (Sintel_built fs root split pass_name tr scenes)
            end
        end
    end.
Proof.
  unfold new_Sintel, instantiate, Sintel___init__.
  unfold bind at 1. unfold FlowDataset___init__, VisionDataset___init__.
  unfold bind at 1. unfold bind at 1. unfold bind at 1. unfold modify at 1 2 3 4.
  unfold bind at 1. unfold lift at 1.
  destruct (verify_str_arg split "split" ["train"; "test"]); [|reflexivity].
  unfold bind at 1. unfold lift at 1.
  destruct (verify_str_arg pass_name "pass_name" ["clean"; "final"]); [|reflexivity].
  unfold bind at 1. unfold lift at 1. unfold Sintel_scenes.
  destruct (os_listdir fs _) as [scenes|e]; [|reflexivity].
  rewrite Sintel_scene_loop. reflexivity.
Qed.

Lemma Sintel_init_run (root split pass_name : string) (tr : option (@transform_fn Image TState))
    (scenes : list string) :
  split = "train" \/ split = "test" ->
  pass_name = "clean" \/ pass_name = "final" ->
  Sintel_scenes fs root split pass_name = Ok scenes ->
  new_Sintel fs root split pass_name tr
  = Ok (Sintel_built fs root split pass_name tr scenes).
Proof.
  intros Hsplit Hpass Hscenes. rewrite Sintel_new_unfold, Hscenes.
  rewrite !verify_str_arg_ok by (simpl; destruct Hsplit, Hpass; auto).
  reflexivity.
Qed.

Lemma len_flat_map {A B : Type} (f : A -> list B) (l : list A) :
  len (flat_map f l) = sum_Z (map (fun x => len (f x)) l).
Proof.
  unfold len. induction l as [|x l IH]; simpl; [reflexivity|].
  rewrite length_app, Nat2Z.inj_add. unfold sum_Z in IH. now rewrite IH.
Qed.

Lemma len_consecutive_pairs (frames : list string) :
  len (consecutive_pairs frames) = Z.max (len frames - 1) 0.
Proof.
  unfold consecutive_pairs, len. rewrite length_map, length_seq. lia.
Qed.

Lemma nth_consecutive_pairs (frames : list string) (i : nat) :
  (S i < List.length frames)%nat ->
  nth i (consecutive_pairs frames) []
  = [nth i frames EmptyString; nth (S i) frames EmptyString].
Proof.
  intros Hi. unfold consecutive_pairs.
  rewrite (nth_indep _ [] ((fun i => [nth i frames EmptyString; nth (S i) frames EmptyString]) O))
    by (rewrite length_map, length_seq; lia).
  rewrite (map_nth (fun i => [nth i frames EmptyString; nth (S i) frames EmptyString])).
  rewrite seq_nth by lia. reflexivity.
Qed.

(** C7, amended. For every Sintel construction (arguments the constructor
    accepts, image root listed as [scenes]): construction succeeds; the
    frames of each scene are the sorted rearrangement of its [*.png]
    files; frame [i] is paired with frame [i + 1] for [i] in
    [[0, count - 2]], in this order, scene after scene; a scene with [n]
    frames gives [max (n - 1) 0] pairs, so [n - 1] when it has a frame
    and none when it has none; [size ()] is the sum of these numbers. *)
Theorem Sintel_pairing (root split pass_name : string) (tr : option (@transform_fn Image TState))
    (scenes : list string) :
  split = "train" \/ split = "test" ->
  pass_name = "clean" \/ pass_name = "final" ->
  Sintel_scenes fs root split pass_name = Ok scenes ->
  let frames := Sintel_frames fs root split pass_name in
  exists d, new_Sintel fs root split pass_name tr = Ok d
    /\ _image_list d = flat_map (fun scene => consecutive_pairs (frames scene)) scenes
    /\ (forall scene,
          Permutation (Sintel_png fs root split pass_name scene) (frames scene)
          /\ StronglySorted str_le (frames scene)
          /\ len (consecutive_pairs (frames scene)) = Z.max (len (frames scene) - 1) 0
          /\ (1 <= len (frames scene) ->
              len (consecutive_pairs (frames scene)) = len (frames scene) - 1)
          /\ (forall i, 0 <= i <= len (frames scene) - 2 ->
                nth (Z.to_nat i) (consecutive_pairs (frames scene)) []
                = [nth (Z.to_nat i) (frames scene) EmptyString;
                   nth (Z.to_nat (i + 1)) (frames scene) EmptyString]))
    /\ (forall ts,
          size d ts
          = Ok (sum_Z (map (fun scene => Z.max (len (frames scene) - 1) 0) scenes))).
Proof.
  intros Hsplit Hpass Hscenes frames.
  eexists. split; [apply (Sintel_init_run _ _ _ _ scenes); assumption|].
  unfold Sintel_built. cbn [_image_list].
  split; [reflexivity|]. split.
  - intros scene. split; [apply sorted_perm|]. split; [apply sorted_sorted|].
    split; [apply len_consecutive_pairs|]. split.
    + intros H. rewrite len_consecutive_pairs. lia.
    + intros i Hi. replace (Z.to_nat (i + 1)) with (S (Z.to_nat i)) by lia.
      apply nth_consecutive_pairs. unfold len in Hi. lia.
  - intros ts. unfold size, FlowDataset___len__, bind, self_, ret. cbn [fst _image_list].
    rewrite len_flat_map. f_equal. f_equal. apply map_ext.
    intros scene. apply len_consecutive_pairs.
Qed.

(** ** FlyingChairs *)

Lemma FC_loop_ok (split : string) (entries : list Z) (flows images : list string)
    (m k : nat) (d : @FlowDataset Image TState) :
  forallb (FC_step_ok split entries images) (seq k m) = true ->
  (k + m <= List.length flows)%nat ->
  for_ (map Z.of_nat (seq k m))
    (FlyingChairs_loop_body split (Array1 entries) flows images) d
  = (Ok tt,
     set_image_list
       (_image_list d ++
        map (fun i => [nth (2 * i) images EmptyString; nth (2 * i + 1) images EmptyString])
          (filter (FC_wanted_at split entries) (seq k m)))
       (set_flow_list
          (_flow_list d ++
           map (fun i => nth i flows EmptyString)
             (filter (FC_wanted_at split entries) (seq k m)))
          d)).
Proof.
  revert k d. induction m as [|m IH]; intros k d Hok Hk.
  - simpl. unfold ret. destruct d; unfold set_image_list, set_flow_list; simpl.
    now rewrite !app_nil_r.
  - cbn [seq map for_ forallb] in *. apply andb_true_iff in Hok as [Hstep Hok].
    unfold FC_step_ok in Hstep. apply andb_true_iff in Hstep as [He Hi].
    apply Nat.ltb_lt in He.
    unfold bind at 1. unfold FlyingChairs_loop_body at 1.
    unfold bind at 1. unfold lift at 1, np_getitem.
    rewrite (seq_getitem_in_range _ entries k 0) by exact He.
    cbn [filter].
    change (split_wanted split (nth k entries 0))
      with (FC_wanted_at split entries k) in *.
    destruct (FC_wanted_at split entries k) eqn:W.
    + apply Nat.ltb_lt in Hi.
      unfold bind at 1. unfold lift at 1, list_getitem.
      rewrite (seq_getitem_in_range _ flows k EmptyString) by lia.
      unfold bind at 1. unfold iadd_flow_list at 1, modify at 1.
      unfold bind at 1. unfold lift at 1.
      replace (2 * Z.of_nat k) with (Z.of_nat (2 * k)) by lia.
      rewrite (seq_getitem_in_range _ images (2 * k) EmptyString) by lia.
      unfold bind at 1. unfold lift at 1.
      replace (Z.of_nat (2 * k) + 1) with (Z.of_nat (2 * k + 1)) by lia.
      rewrite (seq_getitem_in_range _ images (2 * k + 1) EmptyString) by lia.
      unfold iadd_image_list at 1, modify at 1.
      rewrite IH by (assumption || lia). f_equal.
      destruct d; unfold set_image_list, set_flow_list; simpl.
      now rewrite <- !app_assoc.
    + unfold ret at 1. now rewrite IH by (assumption || lia).
Qed.

Lemma FC_loop_fail (split : string) (entries : list Z) (flows images : list string)
    (m k : nat) (d : @FlowDataset Image TState) :
  forallb (FC_step_ok split entries images) (seq k m) = false ->
  (k + m <= List.length flows)%nat ->
  exists msg d',
    for_ (map Z.of_nat (seq k m))
      (FlyingChairs_loop_body split (Array1 entries) flows images) d
    = (Raise (IndexError msg), d').
Proof.
  revert k d. induction m as [|m IH]; intros k d Hbad Hk.
  - discriminate.
  - cbn [seq map for_ forallb] in *.
    unfold bind at 1. unfold FlyingChairs_loop_body at 1.
    unfold bind at 1. unfold lift at 1, np_getitem.
    destruct (Nat.ltb_spec k (List.length entries)) as [He|He].
    2:{ rewrite seq_getitem_out_of_range by exact He. eauto. }
    rewrite (seq_getitem_in_range _ entries k 0) by exact He.
    unfold FC_step_ok at 1 in Hbad.
    apply Nat.ltb_lt in He. rewrite He in Hbad. cbn [andb] in Hbad.
    destruct (split_wanted split (nth k entries 0)) eqn:W.
    + unfold bind at 1. unfold lift at 1, list_getitem.
      rewrite (seq_getitem_in_range _ flows k EmptyString) by lia.
      unfold bind at 1. unfold iadd_flow_list at 1, modify at 1.
      unfold bind at 1. unfold lift at 1.
      replace (2 * Z.of_nat k) with (Z.of_nat (2 * k)) by lia.
      destruct (Nat.ltb_spec (2 * k) (List.length images)) as [H0|H0].
      2:{ rewrite seq_getitem_out_of_range by exact H0. eauto. }
      rewrite (seq_getitem_in_range _ images (2 * k) EmptyString) by exact H0.
      unfold bind at 1. unfold lift at 1.
      replace (Z.of_nat (2 * k) + 1) with (Z.of_nat (2 * k + 1)) by lia.
      destruct (Nat.ltb_spec (2 * k + 1) (List.length images)) as [H1|H1].
      2:{ rewrite seq_getitem_out_of_range by exact H1. eauto. }
      rewrite (seq_getitem_in_range _ images (2 * k + 1) EmptyString) by exact H1.
      cbn [andb] in Hbad.
      unfold iadd_image_list at 1, modify at 1.
      apply IH; [exact Hbad|lia].
    + unfold ret at 1. cbn [andb] in Hbad. apply IH; [exact Hbad|lia].
Qed.

Lemma FC_loop_scalar (split : string) (x : Z) (flows images : list string)
    (m k : nat) (d : @FlowDataset Image TState) :
  exists msg,
    for_ (map Z.of_nat (seq k (S m)))
      (FlyingChairs_loop_body split (Array0 x) flows images) d
    = (Raise (IndexError msg), d).
Proof. eexists. reflexivity. Qed.

Lemma FC_step_ok_indexable (split : string) (entries : list Z) (flows images : list string) :
  forallb (FC_step_ok split entries images) (seq 0 (List.length flows)) = true
  <-> FC_indexable split entries flows images.
Proof.
  unfold FC_indexable. rewrite forallb_forall. split.
  - intros H. split.
    + destruct flows as [|f flows']; [simpl; lia|].
      specialize (H (List.length flows')).
      assert (Hin : In (List.length flows') (seq 0 (List.length (f :: flows')))).
      { apply in_seq. simpl. lia. }
      apply H in Hin. unfold FC_step_ok in Hin.
      apply andb_true_iff in Hin as [Hin _]. apply Nat.ltb_lt in Hin. simpl. lia.
    + intros i Hi W. assert (Hin : In i (seq 0 (List.length flows))) by (apply in_seq; lia).
      apply H in Hin. unfold FC_step_ok in Hin.
      apply andb_true_iff in Hin as [_ Hin]. rewrite W in Hin.
      apply Nat.ltb_lt in Hin. lia.
  - intros [Hlen Himg] i Hin. apply in_seq in Hin. unfold FC_step_ok.
    apply andb_true_iff. split; [apply Nat.ltb_lt; lia|].
    destruct (split_wanted split (nth i entries 0)) eqn:W; [|reflexivity].
    apply Nat.ltb_lt. specialize (Himg i ltac:(lia) W). lia.
Qed.

Lemma verify_str_arg_inv (v arg : string) (vs : list string) (r : string) :
  verify_str_arg v arg vs = Ok r -> In v vs.
Proof.
  unfold verify_str_arg. destruct (existsb (String.eqb v) vs) eqn:E; [|discriminate].
  intros _. apply existsb_exists in E as [x [Hin Hx]].
  apply String.eqb_eq in Hx. now subst.
Qed.

Lemma FC_new_unfold (root split : string) (tr : option (@transform_fn Image TState)) :
  new_FlyingChairs fs root split tr
  = match verify_str_arg split "split" ["train"; "val"] with
    | Raise e => Raise e
    | Ok _ =>
        if negb (os_path_exists fs (FC_split_file root))
        then Raise (FileNotFoundError
          "The FlyingChairs_train_val.txt file was not found - please download it from the dataset page (see docstring).")
        else
          match int_lines fs (FC_split_file root) with
          | Raise e => Raise e
          | Ok entries =>
              match for_ (range (len (FC_flows fs root)))
                      (FlyingChairs_loop_body split (squeeze entries)
                         (FC_flows fs root) (FC_images fs root))
                      (fresh FlyingChairs root tr : @FlowDataset Image TState) with
              | (Ok _, d) => Ok d
              | (Raise e, _) => Raise e
              end
          end
    end.
Proof.
  unfold new_FlyingChairs, instantiate, FlyingChairs___init__.
  unfold bind at 1. unfold FlowDataset___init__, VisionDataset___init__.
  unfold bind at 1. unfold bind at 1. unfold bind at 1. unfold modify at 1 2 3 4.
  unfold bind at 1. unfold lift at 1.
  destruct (verify_str_arg split "split" ["train"; "val"]); [|reflexivity].
  cbv zeta. fold (FC_split_file root). fold (FC_flows fs root). fold (FC_images fs root).
  destruct (os_path_exists fs (FC_split_file root)); [|reflexivity].
  cbn [negb]. unfold bind at 1. unfold lift at 1, np_loadtxt.
  destruct (int_lines fs (FC_split_file root)); reflexivity.
Qed.

Lemma range_len (l : list string) : range (len l) = map Z.of_nat (seq 0 (List.length l)).
Proof. unfold range, len. now rewrite Nat2Z.id. Qed.

(** The loop of FlyingChairs on the array [numpy.loadtxt] gives: it ends
    normally exactly when every index stays in range and the array is
    not 0-dimensional (or there is no flow file at all). *)
Lemma FC_loop_cases (root split : string) (tr : option (@transform_fn Image TState)) (entries : list Z) :
  let flows := FC_flows fs root in
  let images := FC_images fs root in
  let run := for_ (range (len flows))
               (FlyingChairs_loop_body split (squeeze entries) flows images)
               (fresh FlyingChairs root tr : @FlowDataset Image TState) in
  (FC_indexable split entries flows images
   /\ (List.length entries = 1%nat -> flows = [])
   /\ run = (Ok tt, FC_built fs root split tr entries))
  \/ ((~ FC_indexable split entries flows images
       \/ (List.length entries = 1%nat /\ flows <> []))
      /\ exists msg d', run = (Raise (IndexError msg), d')).
Proof.
  intros flows images run. subst run. rewrite range_len.
  destruct flows as [|f flows'] eqn:Eflows.
  { left. split; [|split].
    - split; [simpl; lia|]. simpl. intros i Hi. lia.
    - reflexivity.
    - unfold FC_built, kept, fresh. fold flows. rewrite Eflows. reflexivity. }
  rewrite <- Eflows.
  assert (Hsq : (exists x, entries = [x] /\ squeeze entries = Array0 x)
                \/ (squeeze entries = Array1 entries /\ List.length entries <> 1%nat)).
  { destruct entries as [|x [|y t]]; simpl; eauto. }
  destruct Hsq as [[x [Hx Hs]]|[Hs Hne]]; rewrite Hs.
  - right. split.
    + right. subst entries. split; [reflexivity|]. rewrite Eflows. discriminate.
    + rewrite Eflows. cbn [List.length].
      destruct (FC_loop_scalar split x (f :: flows') images (List.length flows') 0
                  (fresh FlyingChairs root tr : @FlowDataset Image TState)) as [msg Hm].
      eauto.
  - destruct (forallb (FC_step_ok split entries images) (seq 0 (List.length flows))) eqn:E.
    + left. pose proof (proj1 (FC_step_ok_indexable _ _ _ _) E) as Hidx.
      split; [exact Hidx|]. split; [intros H1; contradiction|].
      rewrite FC_loop_ok by (exact E || lia). reflexivity.
    + right. split.
      * left. intros Hidx. apply FC_step_ok_indexable in Hidx. congruence.
      * apply FC_loop_fail; [exact E|lia].
Qed.

Lemma skipn_nth_cons {A : Type} (l : list A) (k : nat) (d : A) :
  (k < List.length l)%nat -> skipn k l = nth k l d :: skipn (S k) l.
Proof.
  revert k. induction l as [|x l IH]; intros k Hk; simpl in Hk; [lia|].
  destruct k as [|k]; [reflexivity|].
  cbn [skipn nth]. apply IH. lia.
Qed.

Lemma kept_count (split : string) (entries : list Z) (m k : nat) :
  (k + m <= List.length entries)%nat ->
  List.length (filter (FC_wanted_at split entries) (seq k m))
  = List.length (filter (split_wanted split) (firstn m (skipn k entries))).
Proof.
  revert k. induction m as [|m IH]; intros k Hk; [reflexivity|].
  rewrite (skipn_nth_cons entries k 0) by lia.
  cbn [seq firstn filter]. unfold FC_wanted_at at 1.
  destruct (split_wanted split (nth k entries 0)); cbn [List.length];
    rewrite IH by lia; reflexivity.
Qed.

Lemma filter_seq_sorted (f : nat -> bool) (m k : nat) :
  StronglySorted lt (filter f (seq k m)).
Proof.
  revert k. induction m as [|m IH]; intros k; [constructor|].
  cbn [seq filter]. destruct (f k); [|apply IH].
  constructor; [apply IH|].
  apply Forall_forall. intros j Hj. apply filter_In in Hj as [Hj _].
  apply in_seq in Hj. lia.
Qed.

Lemma split_wanted_spec (split : string) (v : Z) :
  split_wanted split v = true
  <-> (split = "train" /\ v = 1) \/ (split = "val" /\ v = 2).
Proof.
  unfold split_wanted. rewrite orb_true_iff, !andb_true_iff.
  rewrite !String.eqb_eq, !Z.eqb_eq. reflexivity.
Qed.

Lemma FC_new_inv (root split : string) (tr : option (@transform_fn Image TState)) (entries : list Z)
    (d : @FlowDataset Image TState) :
  int_lines fs (FC_split_file root) = Ok entries ->
  new_FlyingChairs fs root split tr = Ok d ->
  d = FC_built fs root split tr entries
  /\ FC_indexable split entries (FC_flows fs root) (FC_images fs root).
Proof.
  intros Hlines. rewrite FC_new_unfold, Hlines.
  destruct (verify_str_arg split "split" ["train"; "val"]); [|discriminate].
  destruct (negb (os_path_exists fs (FC_split_file root))); [discriminate|].
  destruct (FC_loop_cases root split tr entries)
    as [[Hidx [_ Hrun]]|[_ [msg [d' Hrun]]]]; rewrite Hrun; [|discriminate].
  intros H. injection H as <-. now split.
Qed.

(** C6, amended. For every FlyingChairs construction that succeeds, with
    the split file holding [entries]: the flow positions kept are, in
    increasing order, the positions [i] below the number of [.flo] files
    whose entry is 1 when [split="train"] and 2 when [split="val"] (an
    entry 1 is kept only for "train", an entry 2 only for "val"); kept
    flow [i] is the sorted flow file [i] and is paired with
    [(images[2*i], images[2*i+1])] of the sorted image list; the number of
    kept entries is the number of matching values among the first
    [len(flows)] entries of the split file. *)
Theorem FlyingChairs_split_filter (root split : string) (tr : option (@transform_fn Image TState))
    (entries : list Z) (d : @FlowDataset Image TState) :
  int_lines fs (FC_split_file root) = Ok entries ->
  new_FlyingChairs fs root split tr = Ok d ->
  let flows := FC_flows fs root in
  let images := FC_images fs root in
  let ks := kept split entries (List.length flows) in
  _flow_list d = map (fun i => nth i flows EmptyString) ks
  /\ _image_list d
     = map (fun i => [nth (2 * i) images EmptyString;
                      nth (2 * i + 1) images EmptyString]) ks
  /\ StronglySorted lt ks
  /\ (forall i, In i ks ->
        (i < List.length flows)%nat /\ (i < List.length entries)%nat
        /\ (2 * i + 1 < List.length images)%nat)
  /\ (forall i, (i < List.length flows)%nat ->
        (In i ks <-> (split = "train" /\ nth i entries 0 = 1)
                     \/ (split = "val" /\ nth i entries 0 = 2)))
  /\ len (_image_list d)
     = len (filter (split_wanted split) (firstn (List.length flows) entries)).
Proof.
  intros Hlines Hnew flows images ks.
  destruct (FC_new_inv _ _ _ _ _ Hlines Hnew) as [-> [Hlen Himg]].
  fold flows in Hlen, Himg. fold images in Himg.
  assert (Hin : forall i, In i ks <->
            (i < List.length flows)%nat /\ split_wanted split (nth i entries 0) = true).
  { intros i. unfold ks, kept. rewrite filter_In, in_seq. unfold FC_wanted_at.
    intuition lia. }
  split; [reflexivity|]. split; [reflexivity|].
  split; [apply filter_seq_sorted|]. split; [|split].
  - intros i Hi. apply Hin in Hi as [Hi W]. specialize (Himg i Hi W). lia.
  - intros i Hi. rewrite Hin, split_wanted_spec. tauto.
  - unfold FC_built. cbn [_image_list]. fold flows. fold ks.
    unfold len. rewrite length_map. f_equal. unfold ks, kept.
    rewrite kept_count by lia. reflexivity.
Qed.

(** C10. FlyingChairs indexes the split list at every flow position and
    the sorted image list at [2*i] and [2*i+1] for every kept [i]: a
    construction that reaches the loop (accepted split, split file
    present and read as [entries]) succeeds only if the split file has at
    least as many entries as there are [.flo] files and the image list
    has at least [2*i+2] entries for every kept [i]; when this fails,
    construction raises IndexError; when it holds, construction succeeds,
    unless the split file has exactly one entry, which [numpy.loadtxt]
    gives back as an array that cannot be indexed. *)
Theorem FlyingChairs_index_precondition (root split : string) (tr : option (@transform_fn Image TState))
    (entries : list Z) :
  split = "train" \/ split = "val" ->
  os_path_exists fs (FC_split_file root) = true ->
  int_lines fs (FC_split_file root) = Ok entries ->
  let flows := FC_flows fs root in
  let images := FC_images fs root in
  (forall d, new_FlyingChairs fs root split tr = Ok d ->
     FC_indexable split entries flows images)
  /\ (~ FC_indexable split entries flows images ->
      is_IndexError (new_FlyingChairs fs root split tr))
  /\ (FC_indexable split entries flows images ->
      (List.length entries = 1%nat -> flows = []) ->
      exists d, new_FlyingChairs fs root split tr = Ok d).
Proof.
  intros Hsplit Hexists Hlines flows images.
  split; [|split].
  - intros d Hnew. apply (FC_new_inv _ _ _ _ _ Hlines Hnew).
  - intros Hbad. rewrite FC_new_unfold, Hlines, Hexists.
    rewrite verify_str_arg_ok by (simpl; destruct Hsplit; auto).
    cbn [negb].
    destruct (FC_loop_cases root split tr entries)
      as [[Hidx _]|[_ [msg [d' Hrun]]]]; [contradiction|].
    rewrite Hrun. now exists msg.
  - intros Hidx Hone. rewrite FC_new_unfold, Hlines, Hexists.
    rewrite verify_str_arg_ok by (simpl; destruct Hsplit; auto).
    cbn [negb].
    destruct (FC_loop_cases root split tr entries)
      as [[_ [_ Hrun]]|[[Hbad|[H1 Hne]] _]].
    + rewrite Hrun. eauto.
    + contradiction.
    + elim Hne. exact (Hone H1).
Qed.

(** ** Indexed access *)

Lemma keeps_self_bind {A B : Type} (c : M world A) (k : A -> M world B) :
  @keeps_self Image TState A c -> (forall a, keeps_self (k a)) -> keeps_self (bind c k).
Proof.
  intros Hc Hk s. unfold bind. specialize (Hc s).
  destruct (c s) as [[a|e] s1]; simpl in *; [|exact Hc].
  now rewrite Hk.
Qed.

Lemma keeps_world_bind {A B : Type} (c : M world A) (k : A -> M world B) :
  @keeps_world Image TState A c -> (forall a, keeps_world (k a)) -> keeps_world (bind c k).
Proof.
  intros Hc Hk s. unfold bind. specialize (Hc s).
  destruct (c s) as [[a|e] s1]; simpl in *; subst s1; [apply Hk|reflexivity].
Qed.

Lemma keeps_world_lift {A : Type} (r : result A) : @keeps_world Image TState A (lift r).
Proof. intros s. reflexivity. Qed.

Lemma keeps_world_ret {A : Type} (a : A) : @keeps_world Image TState A (ret a).
Proof. intros s. reflexivity. Qed.

Lemma keeps_world_self : @keeps_world Image TState _ self_.
Proof. intros s. reflexivity. Qed.

Lemma keeps_world_self_ {A : Type} (c : M world A) :
  @keeps_world Image TState A c -> keeps_self c.
Proof. intros H s. now rewrite H. Qed.

Lemma keeps_self_call (t : @transform_fn Image TState) (a b c e : value) :
  keeps_self (call_transform t a b c e).
Proof. intros s. unfold call_transform. now destruct (t a b c e (snd s)). Qed.

Lemma returns_only_bind {S A B : Type} (P : B -> Prop) (c : M S A) (k : A -> M S B) :
  (forall a, returns_only P (k a)) -> returns_only P (bind c k).
Proof.
  intros Hk s b s'. unfold bind.
  destruct (c s) as [[a|e] s1]; [apply Hk|discriminate].
Qed.

Lemma returns_only_ret {S A : Type} (P : A -> Prop) (a : A) :
  P a -> @returns_only S A P (ret a).
Proof. intros H s b s' E. injection E as <- _. exact H. Qed.

Ltac keeps_world_steps :=
  repeat first
    [ apply keeps_world_lift | apply keeps_world_ret | apply keeps_world_self
    | apply keeps_world_bind; [|intros ?]
    | match goal with
      | |- keeps_world (match ?x with _ => _ end) => destruct x
      end ].

Ltac keeps_self_steps :=
  repeat first
    [ apply keeps_self_call
    | apply keeps_world_self_; keeps_world_steps; fail
    | apply keeps_self_bind; [|intros ?]
    | match goal with
      | |- keeps_self (match ?x with _ => _ end) => destruct x
      end ].

(** [__getitem__] does not assign to the instance. *)
Lemma getitem_keeps_self (index : Z) :
  @keeps_self Image TState _ (FlowDataset___getitem__ fs index).
Proof. unfold FlowDataset___getitem__. keeps_self_steps. Qed.

(** Without a transform it changes nothing at all. *)
Lemma getitem_keeps_world (index : Z) (s : @world Image TState) :
  transforms (fst s) = None -> snd (FlowDataset___getitem__ fs index s) = s.
Proof.
  intros Hnone. unfold FlowDataset___getitem__.
  unfold bind at 1. unfold self_ at 1. rewrite Hnone.
  match goal with |- snd (?c s) = s => cut (keeps_world c); [intros Hc; apply Hc|] end.
  keeps_world_steps.
Qed.

Lemma len_keeps_world : @keeps_world Image TState _ FlowDataset___len__.
Proof. unfold FlowDataset___len__. keeps_world_steps. Qed.

Lemma getitem_returns_tuple (index : Z) (s : @world Image TState) (r : value)
    (s' : world) :
  FlowDataset___getitem__ fs index s = (Ok r, s') ->
  tuple_of_arity (if _has_builtin_flow_mask (cls (fst s)) then 4 else 3) r.
Proof.
  unfold FlowDataset___getitem__.
  unfold bind at 1. unfold self_ at 1.
  match goal with
  | |- ?c s = _ -> ?P r => cut (returns_only P c); [intros Hc; apply Hc|]
  end.
  repeat (apply returns_only_bind; intros ?).
  match goal with
  | q : (value * value * value * value)%type |- _ => destruct q as [[[img1 img2] flow] valid]
  end.
  destruct (_has_builtin_flow_mask (cls (fst s)));
    apply returns_only_ret; eexists; split; reflexivity.
Qed.

Lemma built_by_cls (c : variant) (d : @FlowDataset Image TState) : built_by fs c d -> cls d = c.
Proof.
  intros [root split pass_name tr d' H|root split tr d' H|root split tr d' H].
  - rewrite Sintel_new_unfold in H.
    destruct (verify_str_arg split _ _); [|discriminate].
    destruct (verify_str_arg pass_name _ _); [|discriminate].
    destruct (Sintel_scenes fs root split pass_name); [|discriminate].
    now injection H as <-.
  - rewrite KittiFlow_new_unfold in H.
    destruct (verify_str_arg split _ _); [|discriminate].
    destruct (sorted _) as [|? ?]; [discriminate|].
    destruct (sorted _) as [|? ?]; [discriminate|].
    now injection H as <-.
  - rewrite FC_new_unfold in H.
    destruct (verify_str_arg split _ _); [|discriminate].
    destruct (negb _); [discriminate|].
    destruct (int_lines fs (FC_split_file root)) as [entries|e] eqn:E; [|discriminate].
    destruct (FC_loop_cases root split tr entries)
      as [[_ [_ Hrun]]|[_ [msg [d'' Hrun]]]]; rewrite Hrun in H; [|discriminate].
    now injection H as <-.
Qed.

(** C4. For every instance a constructor of the module built and every
    index, whatever the split and whether or not a transform is set: a
    value [get] returns is a tuple of 4 items when the class is KittiFlow
    (the class whose built-in-mask flag is set) and of 3 items when it is
    Sintel or FlyingChairs. *)
Theorem getitem_arity (c : variant) (d : @FlowDataset Image TState) (ts : TState) (index : Z) (r : value) :
  built_by fs c d ->
  get fs d ts index = Ok r ->
  _has_builtin_flow_mask c = match c with KittiFlow => true | _ => false end
  /\ match c with
     | KittiFlow => exists img1 img2 flow valid, r = VTuple [img1; img2; flow; valid]
     | Sintel | FlyingChairs => exists img1 img2 flow, r = VTuple [img1; img2; flow]
     end.
Proof.
  intros Hbuilt Hget. apply built_by_cls in Hbuilt.
  revert Hget. unfold get.
  destruct (FlowDataset___getitem__ fs index (d, ts)) as [r' s'] eqn:E.
  cbn [fst]. intros ->.
  apply getitem_returns_tuple in E. cbn [fst] in E. rewrite Hbuilt in E.
  split; [now destruct c|].
  destruct E as [items [-> Hlen]].
  destruct c; cbn [_has_builtin_flow_mask] in Hlen.
  - destruct items as [|a [|b [|c' [|? ?]]]]; try discriminate. eauto.
  - destruct items as [|a [|b [|c' [|e [|? ?]]]]]; try discriminate. eauto.
  - destruct items as [|a [|b [|c' [|? ?]]]]; try discriminate. eauto.
Qed.

(** C9. For every instance with no transform and every index, two calls
    of [__getitem__] one after the other give the same result (the same
    images, flow and mask, or the same exception), and neither changes the
    instance nor anything else of the state. *)
Theorem getitem_deterministic (d : @FlowDataset Image TState) (ts : TState) (index : Z) :
  transforms d = None ->
  let first := FlowDataset___getitem__ fs index (d, ts) in
  let second := FlowDataset___getitem__ fs index (snd first) in
  fst first = fst second /\ snd first = (d, ts) /\ snd second = (d, ts).
Proof.
  intros Hnone first second.
  assert (H1 : snd first = (d, ts)) by (apply getitem_keeps_world; exact Hnone).
  subst second. rewrite H1. fold first. rewrite H1. auto.
Qed.

Lemma length_flat_map_ext {A B C : Type} (f : A -> list B) (g : A -> list C) (l : list A) :
  (forall x, In x l -> List.length (f x) = List.length (g x)) ->
  List.length (flat_map f l) = List.length (flat_map g l).
Proof.
  induction l as [|x l IH]; intros H; simpl; [reflexivity|].
  rewrite !length_app, H, IH; auto using in_eq, in_cons.
Qed.

Lemma well_paired_paired (d : @FlowDataset Image TState) : well_paired fs d -> paired d.
Proof.
  intros [root split tr d' H|root pass_name tr d' H|root pass_name tr scenes d' Hs Hall H
         |root tr d' H|root tr d' Hlen H]; unfold paired.
  - right. rewrite FC_new_unfold in H.
    destruct (verify_str_arg split _ _); [|discriminate].
    destruct (negb _); [discriminate|].
    destruct (int_lines fs (FC_split_file root)) as [entries|e] eqn:E; [|discriminate].
    destruct (FC_loop_cases root split tr entries)
      as [[_ [_ Hrun]]|[_ [msg [d'' Hrun]]]]; rewrite Hrun in H; [|discriminate].
    injection H as <-. unfold FC_built. cbn [_flow_list _image_list].
    now rewrite !length_map.
  - left. rewrite Sintel_new_unfold in H.
    destruct (verify_str_arg "test" _ _); [|discriminate].
    destruct (verify_str_arg pass_name _ _); [|discriminate].
    destruct (Sintel_scenes fs root "test" pass_name); [|discriminate].
    now injection H as <-.
  - right. rewrite Sintel_new_unfold, Hs in H.
    destruct (verify_str_arg "train" _ _); [|discriminate].
    destruct (verify_str_arg pass_name _ _); [|discriminate].
    injection H as <-. unfold Sintel_built. cbn [_flow_list _image_list String.eqb].
    simpl (_ =? _)%string. cbv iota.
    now apply length_flat_map_ext.
  - left. rewrite KittiFlow_new_unfold in H.
    destruct (verify_str_arg "test" _ _); [|discriminate].
    destruct (sorted _) as [|? ?]; [discriminate|].
    destruct (sorted _) as [|? ?]; [discriminate|].
    now injection H as <-.
  - right. rewrite KittiFlow_new_unfold in H.
    destruct (verify_str_arg "train" _ _); [|discriminate].
    destruct (sorted (Kitti_glob fs root "train" "image_2" "*_10.png")) as [|x1 s1] eqn:E1;
      [discriminate|].
    destruct (sorted (Kitti_glob fs root "train" "image_2" "*_11.png")) as [|x2 s2] eqn:E2;
      [discriminate|].
    injection H as <-. unfold Kitti_built. cbn [_flow_list _image_list].
    simpl (_ =? _)%string. cbv iota. rewrite E1, E2, <- E1, <- E2.
    unfold zip. rewrite length_map, length_combine, !sorted_length.
    unfold len in Hlen. lia.
Qed.

(** C1, amended. For every FlyingChairs instance, every Sintel or
    KittiFlow instance of the "test" split, every Sintel "train" instance
    whose scenes each hold as many [.flo] files as consecutive frame pairs,
    and every KittiFlow "train" instance whose [flow_occ] glob gives as
    many files as there are zipped image pairs: after construction the
    flow list is empty or as long as the list of image pairs; [size] and
    [get] leave the instance as it is, so the invariant still holds after
    them. *)
Theorem paired_invariant (d : @FlowDataset Image TState) (ts : TState) (index : Z) :
  well_paired fs d ->
  paired d
  /\ fst (snd (FlowDataset___len__ (d, ts))) = d
  /\ fst (snd (FlowDataset___getitem__ fs index (d, ts))) = d
  /\ paired (fst (snd (FlowDataset___len__ (d, ts))))
  /\ paired (fst (snd (FlowDataset___getitem__ fs index (d, ts)))).
Proof.
  intros Hwp. pose proof (well_paired_paired d Hwp) as Hp.
  pose proof (getitem_keeps_self index (d, ts)) as Hg. cbn [fst] in Hg.
  pose proof (len_keeps_world (d, ts)) as Hl.
  rewrite Hg, Hl. cbn [fst]. auto.
Qed.

(** ** The flow PNG *)

Lemma f32_isb_sound (w : Z) (q : Q) : f32_isb w q = true -> f32_is w q.
Proof.
  unfold f32_isb, f32_is. destruct (Float32.value_of_bits w) as [v|]; [|discriminate].
  intros H. exists v. split; [reflexivity|now apply Qeq_bool_iff].
Qed.

Lemma decode_all_samples :
  forallb (fun raw => f32_isb (decode_flow_sample raw) (flow_of_raw raw)) uint16_samples
  = true.
Proof. vm_compute. reflexivity. Qed.


Lemma In_count_from (n : nat) (z0 z : Z) :
  z0 <= z < z0 + Z.of_nat n -> In z (count_from n z0).
Proof.
  revert z0. induction n as [|n IH]; intros z0 Hz; [lia|].
  cbn [count_from]. destruct (Z.eq_dec z0 z) as [->|Hne]; [now left|].
  right. apply IH. lia.
Qed.

Lemma decode_flow_sample_exact (raw : Z) :
  0 <= raw < 65536 -> f32_is (decode_flow_sample raw) (flow_of_raw raw).
Proof.
  intros Hraw. apply f32_isb_sound.
  pose proof decode_all_samples as H. rewrite forallb_forall in H.
  apply H. apply In_count_from. lia.
Qed.

Lemma row_size_to_float32 (t : tensor) :
  row_size (to_float32 t) = (height t * width t)%nat.
Proof.
  unfold row_size, to_float32. cbn [shape tl prod_dims fold_right].
  rewrite Z.mul_1_r, <- Nat2Z.inj_mul. apply Nat2Z.id.
Qed.

Lemma In_firstn {A : Type} (x : A) (n : nat) (l : list A) : In x (firstn n l) -> In x l.
Proof.
  intros H. rewrite <- (firstn_skipn n l). apply in_or_app. now left.
Qed.

Lemma Forall2_map_r {A B : Type} (P : A -> B -> Prop) (f : A -> B) (l : list A) :
  Forall (fun a => P a (f a)) l -> Forall2 P l (map f l).
Proof. induction 1; simpl; constructor; assumption. Qed.

(** C8. For every flow PNG the decoder gives as a [(C, H, W)] tensor of
    16-bit samples with the three channels the format has, the reader
    returns [(flow, valid)] where [flow] has shape [(2, H, W)] and each of
    its items is the float32 that stands exactly for
    [(raw - 2^15) / 64], [raw] being the sample of channels 0-1 at the same
    place. *)
Theorem png_flow_exact (file_name : string) (t : tensor) :
  _read_png_16 fs file_name = Ok t ->
  (3 <= channels t)%nat ->
  Forall (fun raw => 0 <= raw < 65536) (pixels t) ->
  exists flow valid,
    _read_16bits_png_with_flow_and_valid_mask fs file_name
    = Ok (VTuple [VArray flow; VArray valid])
    /\ shape flow = [2; Z.of_nat (height t); Z.of_nat (width t)]
    /\ Forall2 (fun raw w => f32_is w (flow_of_raw raw))
         (firstn (2 * (height t * width t)) (pixels t)) (data flow).
Proof.
  intros Hread Hc Hrange.
  unfold _read_16bits_png_with_flow_and_valid_mask. rewrite Hread.
  unfold nd_index0. cbn [to_float32 shape].
  destruct (Z.leb_spec (Z.of_nat (channels t)) (Z.of_nat 2)) as [H|_]; [lia|].
  eexists. eexists. split; [reflexivity|].
  unfold nd_slice0. cbn [to_float32 shape].
  fold (to_float32 t). rewrite row_size_to_float32.
  rewrite Nat2Z.id. replace (Nat.min 2 (channels t)) with 2%nat by lia.
  split; [reflexivity|].
  cbn [f32_div_scalar f32_sub_scalar data to_float32].
  rewrite firstn_map, !map_map.
  apply (Forall2_map_r (fun raw w => f32_is w (flow_of_raw raw))
           (fun raw => decode_flow_sample raw)).
  apply Forall_forall. intros raw Hin. apply decode_flow_sample_exact.
  apply In_firstn in Hin. rewrite Forall_forall in Hrange. now apply Hrange.
Qed.


(** ** The [.flo] reader *)

Lemma le32_range (b0 b1 b2 b3 : byte) : 0 <= le32 b0 b1 b2 b3 < 4294967296.
Proof.
  unfold le32.
  pose proof (Byte.to_N_bounded b0). pose proof (Byte.to_N_bounded b1).
  pose proof (Byte.to_N_bounded b2). pose proof (Byte.to_N_bounded b3).
  lia.
Qed.

(** Among the 32-bit patterns, only [0x48454950] compares equal to
    [202021.25]. *)
Lemma magic_eqb_bits (w : Z) :
  0 <= w < 4294967296 ->
  (Float32.eqb Float32.f202021_25 (Float32.of_bits w) = true <-> w = 1212500304).
Proof.
  intros Hw. split; [|intros ->; vm_compute; reflexivity].
  unfold Float32.of_bits.
  rewrite Z.testbit_odd, !Z.shiftr_div_pow2 by lia.
  change 8388607 with (Z.ones 23). change 255 with (Z.ones 8).
  rewrite !Z.land_ones by lia.
  change (Z.ones 8) with 255.
  change (2 ^ 23) with 8388608. change (2 ^ 31) with 2147483648. change (2 ^ 8) with 256.
  assert (Hm : 0 <= w mod 8388608 < 8388608) by (apply Z.mod_pos_bound; lia).
  assert (He : 0 <= (w / 8388608) mod 256 < 256) by (apply Z.mod_pos_bound; lia).
  assert (Hq : 0 <= w / 8388608 < 512) by (split; [apply Z.div_pos|apply Z.div_lt_upper_bound]; lia).
  assert (Hs : 0 <= w / 2147483648 < 2) by (split; [apply Z.div_pos|apply Z.div_lt_upper_bound]; lia).
  pose proof (Z.div_mod w 8388608 ltac:(lia)) as Dw.
  pose proof (Z.div_mod (w / 8388608) 256 ltac:(lia)) as De.
  pose proof (Z.div_mod w 2147483648 ltac:(lia)) as Ds.
  assert (Hs2 : 0 <= w mod 2147483648 < 2147483648) by (apply Z.mod_pos_bound; lia).
  destruct (Z.eqb_spec ((w / 8388608) mod 256) 0) as [E0|E0].
  { destruct (w mod 8388608) as [|p|p]; unfold Float32.eqb, Float32.f202021_25, SFeqb;
      unfold SFcompare; try discriminate.
    destruct (Z.odd (w / 2147483648)); discriminate. }
  destruct (Z.eqb_spec ((w / 8388608) mod 256) 255) as [E1|E1].
  { destruct (w mod 8388608 =? 0); unfold Float32.eqb, Float32.f202021_25, SFeqb;
      unfold SFcompare; try discriminate.
    destruct (Z.odd (w / 2147483648)); discriminate. }
  destruct (w mod 8388608 + 8388608) as [|p|p] eqn:Ep;
    unfold Float32.eqb, Float32.f202021_25, SFeqb; unfold SFcompare; try discriminate.
  destruct (Z.odd (w / 2147483648)) eqn:Eodd; [discriminate|].
  destruct (Z.compare_spec (-6) ((w / 8388608) mod 256 - 150)) as [Ee| |]; try discriminate.
  destruct (Pos.compare_cont Eq 12929360 p) eqn:Ec; try discriminate.
  apply Pos.compare_eq in Ec. subst p. intros _.
  assert (w / 2147483648 = 0).
  { destruct (Z.eq_dec (w / 2147483648) 0) as [H0|H0]; [exact H0|].
    assert (H1 : w / 2147483648 = 1) by lia. rewrite H1 in Eodd. discriminate. }
  lia.
Qed.

Lemma read_flo_stream_bad_magic (b0 b1 b2 b3 : byte) (rest : list byte) :
  Float32.eqb Float32.f202021_25 (Float32.of_bits (le32 b0 b1 b2 b3)) = false ->
  @_read_flo_stream Image (b0 :: b1 :: b2 :: b3 :: rest)
  = (Raise (ValueError "Magic number incorrect. Invalid .flo file"), rest).
Proof.
  intros Hmagic.
  unfold _read_flo_stream. unfold bind at 1. unfold np_fromfile at 1.
  change (9223372036854775807 <? 1) with false.
  change (1 <? 0) with false. change (Z.to_nat 1) with 1%nat.
  cbn [read_items]. unfold magic_differs. rewrite Hmagic. reflexivity.
Qed.

(** C3. For every [.flo] file with at least four bytes whose first four
    bytes, read as a little-endian float32, do not compare equal to
    [202021.25], [_read_flo] raises ValueError with the message about the
    incorrect magic number, and so returns no flow field. *)
Theorem read_flo_bad_magic (file_name : string) (b0 b1 b2 b3 : byte) (rest : list byte) :
  open_rb fs file_name = Ok (b0 :: b1 :: b2 :: b3 :: rest) ->
  Float32.eqb Float32.f202021_25 (Float32.of_bits (le32 b0 b1 b2 b3)) = false ->
  _read_flo fs file_name
  = Raise (ValueError "Magic number incorrect. Invalid .flo file")
  /\ (forall flow, _read_flo fs file_name <> Ok flow).
Proof.
  intros Hopen Hmagic.
  assert (H : _read_flo fs file_name
              = Raise (ValueError "Magic number incorrect. Invalid .flo file")).
  { unfold _read_flo. rewrite Hopen.
    now rewrite read_flo_stream_bad_magic. }
  split; [exact H|]. intros flow. rewrite H. discriminate.
Qed.

(** The same, on the bytes: the four bytes are not [50 49 45 48] (hex). *)
Lemma flo_magic_bytes_rejected (file_name : string) (b0 b1 b2 b3 : byte)
    (rest : list byte) :
  open_rb fs file_name = Ok (b0 :: b1 :: b2 :: b3 :: rest) ->
  le32 b0 b1 b2 b3 <> 1212500304 ->
  _read_flo fs file_name
  = Raise (ValueError "Magic number incorrect. Invalid .flo file").
Proof.
  intros Hopen Hne.
  assert (Hm : Float32.eqb Float32.f202021_25 (Float32.of_bits (le32 b0 b1 b2 b3)) = false).
  { destruct (Float32.eqb _ _) eqn:E; [|reflexivity].
    apply magic_eqb_bits in E; [contradiction|apply le32_range]. }
  unfold _read_flo. rewrite Hopen.
  now rewrite read_flo_stream_bad_magic.
Qed.

Lemma f202021_25_value : (exists v, Float32.to_Q Float32.f202021_25 = Some v
                                    /\ (v == 20202125 # 100)%Q).
Proof. eexists. split; [reflexivity|]. vm_compute. reflexivity. Qed.


(** * Further properties *)

(** ** More on the [.flo] reader *)

Lemma fst_read_items_cons (n : nat) (b0 b1 b2 b3 : byte) (rest : list byte) :
  fst (read_items (S n) (b0 :: b1 :: b2 :: b3 :: rest))
  = le32 b0 b1 b2 b3 :: fst (read_items n rest).
Proof. cbn [read_items]. now destruct (read_items n rest). Qed.


Lemma read_items_full (n : nat) (f : list byte) :
  (4 * n <= List.length f)%nat ->
  List.length (fst (read_items n f)) = n
  /\ forall i, (i < n)%nat -> nth i (fst (read_items n f)) 0 = item_at f i.
Proof.
  revert f. induction n as [|n IH]; intros f Hf; [split; [reflexivity|lia]|].
  destruct f as [|b0 [|b1 [|b2 [|b3 rest]]]]; try (simpl in Hf; lia).
  rewrite fst_read_items_cons.
  destruct (IH rest) as [Hlen Hnth]; [simpl in Hf; lia|].
  split; [simpl; now rewrite Hlen|].
  intros [|i] Hi; [reflexivity|].
  cbn [nth]. rewrite Hnth by lia. unfold item_at.
  replace (4 * S i)%nat with (S (S (S (S (4 * i))))) by lia.
  reflexivity.
Qed.

Lemma int32_of_bits_range (b0 b1 b2 b3 : byte) :
  -2147483648 <= int32_of_bits (le32 b0 b1 b2 b3) < 2147483648.
Proof.
  pose proof (le32_range b0 b1 b2 b3) as H. unfold int32_of_bits.
  destruct (Z.ltb_spec (le32 b0 b1 b2 b3) 2147483648); lia.
Qed.

Lemma np_fromfile_one (b0 b1 b2 b3 : byte) (rest : list byte) :
  np_fromfile 1 (b0 :: b1 :: b2 :: b3 :: rest) = (Ok [le32 b0 b1 b2 b3], rest).
Proof. reflexivity. Qed.

Lemma np_fromfile_count (count : Z) (f : list byte) :
  0 <= count <= 9223372036854775807 ->
  fst (np_fromfile count f) = Ok (fst (read_items (Z.to_nat count) f)).
Proof.
  intros Hc. unfold np_fromfile.
  destruct (Z.ltb_spec 9223372036854775807 count); [lia|].
  destruct (Z.ltb_spec count 0); [lia|].
  now destruct (read_items (Z.to_nat count) f).
Qed.

(** After a well-formed header the reader reads [2*w*h] items and
    reshapes them. *)
Lemma read_flo_after_header (f : list byte) (w h : Z) (payload : list byte) :
  flo_layout f w h payload -> 0 <= w -> 0 <= h ->
  fst (@_read_flo_stream Image f)
  = match np_reshape (fst (read_items (Z.to_nat (2 * w * h)) payload)) [2; h; w] with
    | Ok a => Ok (VArray a)
    | Raise e => Raise e
    end.
Proof.
  intros [b0 [b1 [b2 [b3 [w0 [w1 [w2 [w3 [h0 [h1 [h2 [h3 [-> [Hm [Hw Hh]]]]]]]]]]]]]]] H0w H0h.
  pose proof (int32_of_bits_range w0 w1 w2 w3) as Rw.
  pose proof (int32_of_bits_range h0 h1 h2 h3) as Rh.
  rewrite Hw in Rw. rewrite Hh in Rh.
  unfold _read_flo_stream.
  unfold bind at 1. rewrite np_fromfile_one.
  unfold magic_differs. rewrite Hm.
  change (Float32.eqb Float32.f202021_25 (Float32.of_bits 1212500304)) with true.
  cbn [negb].
  unfold bind at 1. rewrite np_fromfile_one.
  unfold bind at 1. unfold lift at 1. cbn [int_of_array]. rewrite Hw.
  unfold bind at 1. rewrite np_fromfile_one.
  unfold bind at 1. unfold lift at 1. cbn [int_of_array]. rewrite Hh.
  unfold bind at 1.
  assert (Hc : 0 <= 2 * w * h <= 9223372036854775807) by nia.
  pose proof (np_fromfile_count (2 * w * h) payload Hc) as Hr.
  destruct (np_fromfile (2 * w * h) payload) as [r rest]. cbn [fst] in Hr. subst r.
  unfold bind, lift, ret.
  now destruct (np_reshape _ _).
Qed.

(** X1. A well-formed [.flo] file (magic number, width [w >= 0], height
    [h >= 0], then at least [2*w*h] 4-byte items) decodes to an array of
    shape [(2, h, w)] whose [2*w*h] items are the first items of the
    payload, in file order and bit for bit; what follows them is ignored. *)
Theorem read_flo_well_formed (file_name : string) (f : list byte) (w h : Z)
    (payload : list byte) :
  open_rb fs file_name = Ok f ->
  flo_layout f w h payload ->
  0 <= w -> 0 <= h ->
  8 * w * h <= len payload ->
  exists a,
    _read_flo fs file_name = Ok (VArray a)
    /\ shape a = [2; h; w]
    /\ len (data a) = 2 * w * h
    /\ forall i, (i < List.length (data a))%nat -> nth i (data a) 0 = item_at payload i.
Proof.
  intros Hopen Hlay Hw Hh Hlen.
  unfold _read_flo. rewrite Hopen, (read_flo_after_header f w h payload Hlay Hw Hh).
  destruct (read_items_full (Z.to_nat (2 * w * h)) payload) as [Hn Hnth].
  { unfold len in Hlen. nia. }
  unfold np_reshape. cbn [filter].
  destruct (Z.ltb_spec h 0); [lia|]. destruct (Z.ltb_spec w 0); [lia|].
  destruct (Z.leb_spec 0 h); [|lia]. destruct (Z.leb_spec 0 w); [|lia].
  cbn [Z.ltb Z.leb Z.compare filter prod_dims fold_right].
  unfold len at 1. rewrite Hn.
  destruct (Z.eqb_spec (Z.of_nat (Z.to_nat (2 * w * h))) (2 * (h * (w * 1)))) as [_|Hne];
    [|nia].
  eexists. split; [reflexivity|]. cbn [shape data].
  split; [reflexivity|]. split.
  - unfold len. rewrite Hn. nia.
  - intros i Hi. rewrite Hn in Hi. now apply Hnth.
Qed.


(** X3. A file shorter than the 12-byte header never decodes to a flow
    field: whatever its bytes, [_read_flo] raises. *)
Theorem read_flo_short_header (file_name : string) (f : list byte) :
  open_rb fs file_name = Ok f ->
  (List.length f < 12)%nat ->
  exists e, _read_flo fs file_name = Raise e.
Proof.
  intros Hopen Hlen. unfold _read_flo. rewrite Hopen.
  destruct f as [|b0 [|b1 [|b2 [|b3 f]]]];
    try (eexists; reflexivity).
  unfold _read_flo_stream. unfold bind at 1. rewrite np_fromfile_one.
  destruct (magic_differs [le32 b0 b1 b2 b3]); [eexists; reflexivity|].
  destruct f as [|w0 [|w1 [|w2 [|w3 f]]]];
    try (eexists; reflexivity).
  unfold bind at 1. rewrite np_fromfile_one.
  unfold bind at 1. unfold lift at 1. cbn [int_of_array].
  destruct f as [|h0 [|h1 [|h2 [|h3 f]]]];
    try (eexists; reflexivity).
  simpl in Hlen. lia.
Qed.


(** ** More on the flow PNG *)

Lemma mask_all_samples :
  forallb (fun raw => f32_isb (mask_sample raw) (inject_Z raw)) uint16_samples = true.
Proof. vm_compute. reflexivity. Qed.

Lemma mask_sample_exact (raw : Z) :
  0 <= raw < 65536 -> f32_is (mask_sample raw) (inject_Z raw).
Proof.
  intros Hraw. apply f32_isb_sound.
  pose proof mask_all_samples as H. rewrite forallb_forall in H.
  apply H. apply In_count_from. lia.
Qed.

Lemma In_skipn {A : Type} (x : A) (n : nat) (l : list A) : In x (skipn n l) -> In x l.
Proof.
  intros H. rewrite <- (firstn_skipn n l). apply in_or_app. now right.
Qed.

(** X4. For a flow PNG decoded as a [(C, H, W)] tensor of 16-bit samples
    with [C >= 3], the mask the reader returns has shape [(H, W)] and each
    of its items is the float32 with the value of the raw sample of
    channel 2 at the same place: the samples are passed on as they are. *)
Theorem png_valid_is_raw (file_name : string) (t : tensor) :
  _read_png_16 fs file_name = Ok t ->
  (3 <= channels t)%nat ->
  Forall (fun raw => 0 <= raw < 65536) (pixels t) ->
  exists flow valid,
    _read_16bits_png_with_flow_and_valid_mask fs file_name
    = Ok (VTuple [VArray flow; VArray valid])
    /\ shape valid = [Z.of_nat (height t); Z.of_nat (width t)]
    /\ Forall2 (fun raw w => f32_is w (inject_Z raw))
         (firstn (height t * width t) (skipn (2 * (height t * width t)) (pixels t)))
         (data valid).
Proof.
  intros Hread Hc Hrange.
  unfold _read_16bits_png_with_flow_and_valid_mask. rewrite Hread.
  unfold nd_index0. cbn [to_float32 shape].
  destruct (Z.leb_spec (Z.of_nat (channels t)) (Z.of_nat 2)) as [H|_]; [lia|].
  eexists. eexists. split; [reflexivity|].
  unfold nd_row. cbn [shape data]. rewrite row_size_to_float32.
  cbn [to_float32 shape data tl]. split; [reflexivity|].
  rewrite skipn_map, firstn_map.
  apply (Forall2_map_r (fun raw w => f32_is w (inject_Z raw)) mask_sample).
  apply Forall_forall. intros raw Hin. apply mask_sample_exact.
  apply In_firstn, In_skipn in Hin. rewrite Forall_forall in Hrange. now apply Hrange.
Qed.

(** X5. A PNG decoded with fewer than three channels has no mask channel:
    the reader raises IndexError and returns neither flow nor mask. *)
Theorem png_without_mask_channel (file_name : string) (t : tensor) :
  _read_png_16 fs file_name = Ok t ->
  (channels t < 3)%nat ->
  is_IndexError (_read_16bits_png_with_flow_and_valid_mask fs file_name).
Proof.
  intros Hread Hc.
  unfold _read_16bits_png_with_flow_and_valid_mask. rewrite Hread.
  unfold nd_index0. cbn [to_float32 shape].
  destruct (Z.leb_spec (Z.of_nat (channels t)) (Z.of_nat 2)) as [_|H]; [|lia].
  eexists. reflexivity.
Qed.


(** ** More on indexed access *)

Lemma seq_getitem_beyond {A : Type} (msg : string) (l : list A) (i : Z) :
  i < - len l \/ len l <= i -> seq_getitem msg l i = Raise (IndexError msg).
Proof.
  intros Hi. unfold seq_getitem.
  pose proof (Zle_0_nat (List.length l)) as Hl. fold (len l) in Hl.
  destruct (Z.ltb_spec i 0).
  - destruct (Z.ltb_spec (i + len l) 0); [reflexivity|lia].
  - destruct (Z.ltb_spec i 0); [lia|].
    destruct (Z.leb_spec (len l) i); [reflexivity|lia].
Qed.

Lemma seq_getitem_from_end {A : Type} (msg : string) (l : list A) (i : Z) :
  - len l <= i < 0 -> seq_getitem msg l i = seq_getitem msg l (i + len l).
Proof.
  intros Hi. unfold seq_getitem. cbv zeta.
  assert (E1 : (i <? 0) = true) by (apply Z.ltb_lt; lia).
  assert (E2 : (i + len l <? 0) = false) by (apply Z.ltb_ge; lia).
  now rewrite E1, !E2.
Qed.

Lemma list_getitem_nth_error {A : Type} (l : list A) (i : nat) (x : A) :
  nth_error l i = Some x -> list_getitem l (Z.of_nat i) = Ok x.
Proof.
  intros H. assert (Hi : (i < List.length l)%nat).
  { apply nth_error_Some. congruence. }
  unfold list_getitem. rewrite (seq_getitem_in_range _ l i x Hi).
  f_equal. now apply nth_error_nth.
Qed.

(** X6. An index outside [[-size, size)] makes [__getitem__] raise
    IndexError before any file is opened, leaving the state as it is. *)
Theorem getitem_index_out_of_range (d : @FlowDataset Image TState) (ts : TState)
    (index : Z) :
  index < - len (_image_list d) \/ len (_image_list d) <= index ->
  FlowDataset___getitem__ fs index (d, ts)
  = (Raise (IndexError "list index out of range"), (d, ts)).
Proof.
  intros Hi. unfold FlowDataset___getitem__.
  unfold bind at 1. unfold self_ at 1. cbn [fst].
  unfold bind at 1. unfold lift at 1, list_getitem.
  now rewrite seq_getitem_beyond.
Qed.

(** X7. On an instance with no flow or one flow per pair, a negative index
    [-size <= index < 0] counts from the end: [__getitem__] does at
    [index] exactly what it does at [index + size]. *)
Theorem getitem_negative_index (d : @FlowDataset Image TState) (ts : TState)
    (index : Z) :
  paired d ->
  - len (_image_list d) <= index < 0 ->
  FlowDataset___getitem__ fs index (d, ts)
  = FlowDataset___getitem__ fs (index + len (_image_list d)) (d, ts).
Proof.
  intros Hp Hi.
  assert (H1 : list_getitem (_image_list d) index
               = list_getitem (_image_list d) (index + len (_image_list d))).
  { now apply seq_getitem_from_end. }
  unfold FlowDataset___getitem__, bind, self_. cbn [fst].
  rewrite H1.
  destruct (_flow_list d) as [|f0 fl] eqn:Ef; [reflexivity|].
  assert (H2 : list_getitem (f0 :: fl) index
               = list_getitem (f0 :: fl) (index + len (_image_list d))).
  { destruct Hp as [Hp|Hp]; [rewrite Ef in Hp; discriminate|].
    rewrite Ef in Hp. unfold len. rewrite <- Hp. apply seq_getitem_from_end.
    unfold len in *. lia. }
  now rewrite H2.
Qed.

Ltac getitem_open_images a b Hpair Ha Hb :=
  unfold FlowDataset___getitem__;
  unfold bind at 1; unfold self_ at 1; cbn [fst];
  rewrite (list_getitem_nth_error _ _ _ Hpair);
  unfold bind at 1; unfold lift at 1;
  unfold bind at 1; unfold lift at 1;
  change (list_getitem [a; b] 0) with (@Ok string a); cbv beta iota;
  unfold bind at 1; unfold lift at 1; unfold _read_img at 1; rewrite Ha;
  unfold bind at 1; unfold lift at 1;
  unfold bind at 1; unfold lift at 1;
  change (list_getitem [a; b] 1) with (@Ok string b); cbv beta iota;
  unfold bind at 1; unfold lift at 1; unfold _read_img at 1; rewrite Hb.

(** X8. With no transform, for an index [i] in range, [get] returns the
    two images opened from the paths of pair [i] and the flow read from
    flow path [i] by the reader of the class: as a 3-tuple for a class
    without mask, and with the reader's mask as fourth item for a class
    with one. *)
Theorem get_reads_listed_files (d : @FlowDataset Image TState) (ts : TState) (i : nat)
    (a b f : string) (i1 i2 : Image) (v : value) :
  transforms d = None ->
  nth_error (_image_list d) i = Some [a; b] ->
  nth_error (_flow_list d) i = Some f ->
  Image_open fs a = Ok i1 ->
  Image_open fs b = Ok i2 ->
  _read_flow fs (cls d) f = Ok v ->
  (_has_builtin_flow_mask (cls d) = false ->
   get fs d ts (Z.of_nat i) = Ok (VTuple [VImage i1; VImage i2; v]))
  /\ (forall flow valid,
        _has_builtin_flow_mask (cls d) = true -> v = VTuple [flow; valid] ->
        get fs d ts (Z.of_nat i) = Ok (VTuple [VImage i1; VImage i2; flow; valid])).
Proof.
  intros Hnone Hpair Hflow Ha Hb Hv.
  assert (Hne : exists f0 fl, _flow_list d = f0 :: fl).
  { destruct (_flow_list d) as [|f0 fl]; [destruct i; discriminate|eauto]. }
  destruct Hne as [f0 [fl Ef]].
  split.
  - intros Hmask. unfold get. getitem_open_images a b Hpair Ha Hb.
    unfold bind at 1. rewrite Ef, <- Ef.
    unfold bind at 1. unfold lift at 1. rewrite (list_getitem_nth_error _ _ _ Hflow).
    unfold bind at 1. unfold lift at 1. rewrite Hv, Hmask, Hnone.
    reflexivity.
  - intros flow valid Hmask ->. unfold get. getitem_open_images a b Hpair Ha Hb.
    unfold bind at 1. rewrite Ef, <- Ef.
    unfold bind at 1. unfold lift at 1. rewrite (list_getitem_nth_error _ _ _ Hflow).
    unfold bind at 1. unfold lift at 1. rewrite Hv, Hmask, Hnone.
    reflexivity.
Qed.

(** X9. When the flow file of item [i] cannot be decoded, [__getitem__]
    raises the reader's exception as it is; the transform, if any, is not
    called and the state is left unchanged. *)
Theorem getitem_flow_error (d : @FlowDataset Image TState) (ts : TState) (i : nat)
    (a b f : string) (i1 i2 : Image) (e : exn) :
  nth_error (_image_list d) i = Some [a; b] ->
  nth_error (_flow_list d) i = Some f ->
  Image_open fs a = Ok i1 ->
  Image_open fs b = Ok i2 ->
  _read_flow fs (cls d) f = Raise e ->
  FlowDataset___getitem__ fs (Z.of_nat i) (d, ts) = (Raise e, (d, ts)).
Proof.
  intros Hpair Hflow Ha Hb He.
  assert (Hne : exists f0 fl, _flow_list d = f0 :: fl).
  { destruct (_flow_list d) as [|f0 fl]; [destruct i; discriminate|eauto]. }
  destruct Hne as [f0 [fl Ef]].
  getitem_open_images a b Hpair Ha Hb.
  unfold bind at 1. rewrite Ef, <- Ef.
  unfold bind at 1. unfold lift at 1. rewrite (list_getitem_nth_error _ _ _ Hflow).
  unfold bind at 1. unfold lift at 1. rewrite He. reflexivity.
Qed.

(** X10. With a transform on a class without mask, the transform is
    called once on [(img1, img2, flow, None)]; when it returns four
    values, [__getitem__] returns the first three as they are and keeps
    the state the transform left. *)
Theorem getitem_applies_transform (d : @FlowDataset Image TState) (ts ts' : TState)
    (i : nat) (a b f : string) (i1 i2 : Image) (v o1 o2 o3 o4 : value)
    (t : @transform_fn Image TState) :
  transforms d = Some t ->
  _has_builtin_flow_mask (cls d) = false ->
  nth_error (_image_list d) i = Some [a; b] ->
  nth_error (_flow_list d) i = Some f ->
  Image_open fs a = Ok i1 ->
  Image_open fs b = Ok i2 ->
  _read_flow fs (cls d) f = Ok v ->
  t (VImage i1) (VImage i2) v VNone ts = (Ok (VTuple [o1; o2; o3; o4]), ts') ->
  FlowDataset___getitem__ fs (Z.of_nat i) (d, ts) = (Ok (VTuple [o1; o2; o3]), (d, ts')).
Proof.
  intros Ht Hmask Hpair Hflow Ha Hb Hv Hcall.
  assert (Hne : exists f0 fl, _flow_list d = f0 :: fl).
  { destruct (_flow_list d) as [|f0 fl]; [destruct i; discriminate|eauto]. }
  destruct Hne as [f0 [fl Ef]].
  getitem_open_images a b Hpair Ha Hb.
  unfold bind at 1. rewrite Ef, <- Ef.
  unfold bind at 1. unfold lift at 1. rewrite (list_getitem_nth_error _ _ _ Hflow).
  unfold bind at 1. unfold lift at 1. rewrite Hv, Hmask, Ht.
  unfold ret at 1. unfold bind at 1. unfold bind at 1.
  unfold call_transform. cbn [fst snd]. rewrite Hcall.
  reflexivity.
Qed.



(** ** More on the constructors *)

Lemma Sintel_new_inv (root split pass_name : string)
    (tr : option (@transform_fn Image TState)) (d : @FlowDataset Image TState) :
  new_Sintel fs root split pass_name tr = Ok d ->
  exists scenes,
    Sintel_scenes fs root split pass_name = Ok scenes
    /\ d = Sintel_built fs root split pass_name tr scenes.
Proof.
  rewrite Sintel_new_unfold.
  destruct (verify_str_arg split _ _); [|discriminate].
  destruct (verify_str_arg pass_name _ _); [|discriminate].
  destruct (Sintel_scenes fs root split pass_name) as [scenes|e]; [|discriminate].
  intros H. injection H as <-. eauto.
Qed.

Lemma KittiFlow_new_inv (root split : string)
    (tr : option (@transform_fn Image TState)) (d : @FlowDataset Image TState) :
  new_KittiFlow fs root split tr = Ok d -> d = Kitti_built fs root split tr.
Proof.
  rewrite KittiFlow_new_unfold.
  destruct (verify_str_arg split _ _); [|discriminate].
  destruct (sorted _) as [|? ?]; [discriminate|].
  destruct (sorted _) as [|? ?]; [discriminate|].
  intros H. now injection H as <-.
Qed.

Lemma FC_new_inv_entries (root split : string)
    (tr : option (@transform_fn Image TState)) (d : @FlowDataset Image TState) :
  new_FlyingChairs fs root split tr = Ok d ->
  exists entries,
    int_lines fs (FC_split_file root) = Ok entries
    /\ d = FC_built fs root split tr entries.
Proof.
  intros H. pose proof H as H'. rewrite FC_new_unfold in H'.
  destruct (verify_str_arg split _ _); [|discriminate].
  destruct (negb _); [discriminate|].
  destruct (int_lines fs (FC_split_file root)) as [entries|e] eqn:E; [|discriminate].
  exists entries. split; [reflexivity|].
  now apply (FC_new_inv root split tr entries d E).
Qed.

Lemma built_by_pairs (c : variant) (d : @FlowDataset Image TState) :
  built_by fs c d -> forall p, In p (_image_list d) -> exists a b, p = [a; b].
Proof.
  intros [root split pass_name tr d' H|root split tr d' H|root split tr d' H] p Hp.
  - apply Sintel_new_inv in H as [scenes [_ ->]].
    unfold Sintel_built in Hp. cbn [_image_list] in Hp.
    apply in_flat_map in Hp as [scene [_ Hp]].
    unfold consecutive_pairs in Hp. apply in_map_iff in Hp as [i [<- _]]. eauto.
  - apply KittiFlow_new_inv in H as ->.
    unfold Kitti_built in Hp. cbn [_image_list] in Hp.
    apply in_map_iff in Hp as [q [<- _]]. eauto.
  - apply FC_new_inv_entries in H as [entries [_ ->]].
    unfold FC_built in Hp. cbn [_image_list] in Hp.
    apply in_map_iff in Hp as [i [<- _]]. eauto.
Qed.

(** X12. Every entry of the image list of a constructed instance holds
    exactly two paths, so for an index in range the two path lookups of
    [__getitem__] never fail: an IndexError of [__getitem__] never comes
    from them. *)
Theorem image_pairs_have_two_paths (c : variant) (d : @FlowDataset Image TState) (i : nat) :
  built_by fs c d ->
  (i < List.length (_image_list d))%nat ->
  exists a b,
    list_getitem (_image_list d) (Z.of_nat i) = Ok [a; b]
    /\ list_getitem [a; b] 0 = Ok a
    /\ list_getitem [a; b] 1 = Ok b.
Proof.
  intros Hb Hi.
  destruct (nth_error (_image_list d) i) as [p|] eqn:E.
  - destruct (built_by_pairs c d Hb p (nth_error_In _ _ E)) as [a [b ->]].
    exists a, b. split; [now apply list_getitem_nth_error|]. split; reflexivity.
  - apply nth_error_None in E. lia.
Qed.

(** X13. On an instance built for the "test" split of Sintel or KittiFlow
    with no transform, [get] at an index in range returns the two opened
    images with [None] for the flow: [(img1, img2, None)] for Sintel and
    [(img1, img2, None, None)] for KittiFlow; no flow file is read. *)
Theorem get_test_split (root pass_name : string) (d : @FlowDataset Image TState)
    (ts : TState) (i : nat) :
  new_Sintel fs root "test" pass_name None = Ok d
  \/ new_KittiFlow fs root "test" None = Ok d ->
  (i < List.length (_image_list d))%nat ->
  exists a b,
    nth_error (_image_list d) i = Some [a; b]
    /\ forall i1 i2,
         Image_open fs a = Ok i1 -> Image_open fs b = Ok i2 ->
         get fs d ts (Z.of_nat i)
         = Ok (VTuple (VImage i1 :: VImage i2 :: VNone
                       :: if _has_builtin_flow_mask (cls d) then [VNone] else [])).
Proof.
  intros Hnew Hi.
  assert (Hb : exists c, built_by fs c d).
  { destruct Hnew as [H|H]; [exists Sintel|exists KittiFlow]; econstructor; exact H. }
  destruct Hb as [c Hb].
  assert (Hd : _flow_list d = [] /\ transforms d = None).
  { destruct Hnew as [H|H].
    - apply Sintel_new_inv in H as [scenes [_ ->]]. split; reflexivity.
    - apply KittiFlow_new_inv in H as ->. split; reflexivity. }
  destruct Hd as [Hf Ht].
  destruct (nth_error (_image_list d) i) as [p|] eqn:E;
    [|apply nth_error_None in E; lia].
  destruct (built_by_pairs c d Hb p (nth_error_In _ _ E)) as [a [b ->]].
  exists a, b. split; [reflexivity|].
  intros i1 i2 Ha Hopen. unfold get.
  getitem_open_images a b E Ha Hopen.
  unfold bind at 1. rewrite Hf. unfold ret at 1.
  unfold bind at 1. rewrite Ht. unfold ret at 1. cbn [fst snd].
  now destruct (_has_builtin_flow_mask (cls d)).
Qed.

Lemma nth_combine {A B : Type} (l : list A) (l' : list B) (i : nat) (x : A) (y : B) :
  (i < Nat.min (List.length l) (List.length l'))%nat ->
  nth i (combine l l') (x, y) = (nth i l x, nth i l' y).
Proof.
  revert l' i. induction l as [|a l IH]; intros [|b l'] i Hi; simpl in Hi; try lia.
  destruct i as [|i]; [reflexivity|]. simpl. apply IH. lia.
Qed.

(** X14. KittiFlow pairs by position in the two sorted lists: pair [i] is
    the [i]-th sorted [_10] file with the [i]-th sorted [_11] file, for
    [i] below the shorter of the two counts; files of the longer list
    beyond that are left out. The flow list is the sorted [flow_occ] glob
    for "train" and is empty for "test". *)
Theorem KittiFlow_pairing (root split : string) (tr : option (@transform_fn Image TState)) :
  split = "train" \/ split = "test" ->
  let images1 := Kitti_glob fs root split "image_2" "*_10.png" in
  let images2 := Kitti_glob fs root split "image_2" "*_11.png" in
  images1 <> [] -> images2 <> [] ->
  exists d, new_KittiFlow fs root split tr = Ok d
    /\ List.length (_image_list d)
       = Nat.min (List.length images1) (List.length images2)
    /\ (forall i, (i < List.length (_image_list d))%nat ->
          nth i (_image_list d) []
          = [nth i (sorted images1) EmptyString; nth i (sorted images2) EmptyString])
    /\ Permutation images1 (sorted images1) /\ StronglySorted str_le (sorted images1)
    /\ Permutation images2 (sorted images2) /\ StronglySorted str_le (sorted images2)
    /\ (split = "train" ->
        _flow_list d = sorted (Kitti_glob fs root split "flow_occ" "*_10.png"))
    /\ (split = "test" -> _flow_list d = []).
Proof.
  intros Hsplit images1 images2 N1 N2.
  exists (Kitti_built fs root split tr).
  assert (Hlen : List.length (_image_list (Kitti_built fs root split tr))
                 = Nat.min (List.length images1) (List.length images2)).
  { unfold Kitti_built. cbn [_image_list]. fold images1. fold images2.
    unfold zip. now rewrite length_map, length_combine, !sorted_length. }
  split.
  - rewrite KittiFlow_new_unfold.
    rewrite verify_str_arg_ok by (simpl; destruct Hsplit; auto).
    fold images1. fold images2.
    pose proof (sorted_nil_iff images1) as S1.
    pose proof (sorted_nil_iff images2) as S2.
    destruct (sorted images1); [tauto|]. destruct (sorted images2); [tauto|].
    reflexivity.
  - split; [exact Hlen|]. split.
    + intros i Hi. rewrite Hlen in Hi.
      unfold Kitti_built. cbn [_image_list]. fold images1. fold images2.
      rewrite (nth_indep _ [] ((fun p : string * string => [fst p; snd p])
                                 (EmptyString, EmptyString)))
        by (unfold zip; rewrite length_map, length_combine, !sorted_length; lia).
      rewrite (map_nth (fun p : string * string => [fst p; snd p])).
      unfold zip. rewrite nth_combine by (rewrite !sorted_length; lia).
      reflexivity.
    + split; [apply sorted_perm|]. split; [apply sorted_sorted|].
      split; [apply sorted_perm|]. split; [apply sorted_sorted|].
      split; intros ->; reflexivity.
Qed.

(** X15. FlyingChairs (with a split it accepts) raises FileNotFoundError
    when the split file [FlyingChairs_train_val.txt] does not exist under
    the root, whatever data files are there. *)
Theorem FlyingChairs_missing_split_file (root split : string)
    (tr : option (@transform_fn Image TState)) :
  split = "train" \/ split = "val" ->
  os_path_exists fs (root // "FlyingChairs" // "FlyingChairs_train_val.txt") = false ->
  exists msg, new_FlyingChairs fs root split tr = Raise (FileNotFoundError msg).
Proof.
  intros Hsplit Hmissing. rewrite FC_new_unfold.
  rewrite verify_str_arg_ok by (simpl; destruct Hsplit; auto).
  unfold FC_split_file. rewrite Hmissing. eexists. reflexivity.
Qed.

Lemma split_wanted_train (v : Z) : split_wanted "train" v = (v =? 1).
Proof. unfold split_wanted. simpl. apply orb_false_r. Qed.

Lemma split_wanted_val (v : Z) : split_wanted "val" v = (v =? 2).
Proof. unfold split_wanted. reflexivity. Qed.

Lemma train_val_count (entries : list Z) (l : list nat) :
  (List.length (filter (FC_wanted_at "train" entries) l)
   + List.length (filter (FC_wanted_at "val" entries) l) <= List.length l)%nat
  /\ ((forall i, In i l -> nth i entries 0 = 1 \/ nth i entries 0 = 2) ->
      (List.length (filter (FC_wanted_at "train" entries) l)
       + List.length (filter (FC_wanted_at "val" entries) l) = List.length l)%nat).
Proof.
  induction l as [|i l [IH1 IH2]]; [split; reflexivity|].
  cbn [filter].
  assert (Et : FC_wanted_at "train" entries i = (nth i entries 0 =? 1))
    by apply split_wanted_train.
  assert (Ev : FC_wanted_at "val" entries i = (nth i entries 0 =? 2))
    by apply split_wanted_val.
  rewrite Et, Ev.
  split.
  - destruct (Z.eqb_spec (nth i entries 0) 1) as [E|E];
      destruct (Z.eqb_spec (nth i entries 0) 2); simpl; lia.
  - intros H. specialize (IH2 (fun j Hj => H j (or_intror Hj))).
    destruct (H i (or_introl eq_refl)) as [E|E]; rewrite E; simpl; lia.
Qed.

(** X16. The "train" and "val" instances built on one root share no flow
    position, and together they hold at most as many items as there are
    [.flo] files; exactly as many when every split entry at a flow
    position is 1 or 2. *)
Theorem FlyingChairs_train_val_partition (root : string)
    (tr : option (@transform_fn Image TState)) (entries : list Z)
    (d_train d_val : @FlowDataset Image TState) :
  int_lines fs (FC_split_file root) = Ok entries ->
  new_FlyingChairs fs root "train" tr = Ok d_train ->
  new_FlyingChairs fs root "val" tr = Ok d_val ->
  let n := List.length (FC_flows fs root) in
  _flow_list d_train
  = map (fun i => nth i (FC_flows fs root) EmptyString) (kept "train" entries n)
  /\ _flow_list d_val
     = map (fun i => nth i (FC_flows fs root) EmptyString) (kept "val" entries n)
  /\ (forall i, In i (kept "train" entries n) -> ~ In i (kept "val" entries n))
  /\ (List.length (_image_list d_train) + List.length (_image_list d_val) <= n)%nat
  /\ ((forall i, (i < n)%nat -> nth i entries 0 = 1 \/ nth i entries 0 = 2) ->
      (List.length (_image_list d_train) + List.length (_image_list d_val) = n)%nat).
Proof.
  intros Hlines Ht Hv n.
  destruct (FC_new_inv _ _ _ _ _ Hlines Ht) as [-> _].
  destruct (FC_new_inv _ _ _ _ _ Hlines Hv) as [-> _].
  unfold FC_built. cbn [_flow_list _image_list]. fold n.
  rewrite !length_map.
  destruct (train_val_count entries (seq 0 n)) as [Hle Heq].
  rewrite length_seq in Hle, Heq.
  split; [reflexivity|]. split; [reflexivity|]. split; [|split].
  - intros i H1 H2. unfold kept in H1, H2.
    apply filter_In in H1 as [_ H1]. apply filter_In in H2 as [_ H2].
    unfold FC_wanted_at in H1, H2.
    rewrite split_wanted_train in H1. rewrite split_wanted_val in H2. lia.
  - exact Hle.
  - intros H. apply Heq. intros i Hi. apply in_seq in Hi. apply H. lia.
Qed.

(** X17. Sintel does not fail on a root without frames: when no listed
    scene holds more than one [*.png] file (in particular when no scene
    is listed), construction succeeds with an empty image list and
    [size ()] is 0. *)
Theorem Sintel_without_pairs (root split pass_name : string)
    (tr : option (@transform_fn Image TState)) (scenes : list string) :
  split = "train" \/ split = "test" ->
  pass_name = "clean" \/ pass_name = "final" ->
  Sintel_scenes fs root split pass_name = Ok scenes ->
  (forall scene, In scene scenes ->
     (List.length (Sintel_png fs root split pass_name scene) <= 1)%nat) ->
  exists d, new_Sintel fs root split pass_name tr = Ok d
    /\ _image_list d = []
    /\ forall ts, size d ts = Ok 0.
Proof.
  intros Hsplit Hpass Hscenes Hfew.
  exists (Sintel_built fs root split pass_name tr scenes).
  split; [now apply Sintel_init_run|].
  assert (Hnil : _image_list (Sintel_built fs root split pass_name tr scenes) = []).
  { unfold Sintel_built. cbn [_image_list].
    clear Hscenes. induction scenes as [|scene scenes IH]; [reflexivity|].
    cbn [flat_map]. rewrite IH by (intros s Hs; apply Hfew; now right).
    rewrite app_nil_r. unfold consecutive_pairs, Sintel_frames.
    rewrite sorted_length.
    specialize (Hfew scene (or_introl eq_refl)).
    replace (List.length (Sintel_png fs root split pass_name scene) - 1)%nat with 0%nat
      by lia.
    reflexivity. }
  split; [exact Hnil|].
  intros ts. unfold size, FlowDataset___len__, bind, self_, ret. cbn [fst].
  now rewrite Hnil.
Qed.

Lemma sorted_unique (l1 l2 : list string) :
  StronglySorted str_le l1 -> StronglySorted str_le l2 -> Permutation l1 l2 -> l1 = l2.
Proof.
  intros H1. revert l2. induction H1 as [|x t1 Hs1 IH Hall1]; intros l2 H2 Hp.
  - apply Permutation_nil in Hp. now subst.
  - destruct H2 as [|y t2 Hs2 Hall2].
    + apply Permutation_sym, Permutation_nil in Hp. discriminate.
    + assert (Hxy : x = y).
      { assert (Hx : In x (y :: t2)) by (eapply Permutation_in; [exact Hp|now left]).
        assert (Hy : In y (x :: t1))
          by (eapply Permutation_in; [apply Permutation_sym; exact Hp|now left]).
        destruct Hx as [Hx|Hx]; [now subst|]. destruct Hy as [Hy|Hy]; [now subst|].
        rewrite Forall_forall in Hall1, Hall2.
        apply String.leb_antisym; [apply Hall1, Hy|apply Hall2, Hx]. }
      subst y. f_equal. apply IH; [exact Hs2|].
      eapply Permutation_cons_inv. exact Hp.
Qed.

Lemma sorted_of_permutation (l1 l2 : list string) :
  Permutation l1 l2 -> sorted l1 = sorted l2.
Proof.
  intros Hp. apply sorted_unique; try apply sorted_sorted.
  eapply perm_trans; [apply Permutation_sym, sorted_perm|].
  eapply perm_trans; [exact Hp|apply sorted_perm].
Qed.


(** X19. When the flow list is not empty but shorter than the image list,
    [__getitem__] at an index in range of the images and beyond the flows
    opens the two images and then raises IndexError: the missing flow is
    not replaced by [None]. *)
Theorem getitem_missing_flow (d : @FlowDataset Image TState) (ts : TState) (i : nat)
    (a b : string) (i1 i2 : Image) :
  nth_error (_image_list d) i = Some [a; b] ->
  Image_open fs a = Ok i1 ->
  Image_open fs b = Ok i2 ->
  _flow_list d <> [] ->
  (List.length (_flow_list d) <= i)%nat ->
  FlowDataset___getitem__ fs (Z.of_nat i) (d, ts)
  = (Raise (IndexError "list index out of range"), (d, ts)).
Proof.
  intros Hpair Ha Hb Hne Hlen.
  destruct (_flow_list d) as [|f0 fl] eqn:Ef; [congruence|].
  getitem_open_images a b Hpair Ha Hb.
  unfold bind at 1. rewrite Ef, <- Ef.
  unfold bind at 1. unfold lift at 1, list_getitem.
  rewrite seq_getitem_out_of_range by (rewrite Ef; exact Hlen).
  reflexivity.
Qed.

End Properties.


(** * Independence of the order of the globs *)

(** X18. The three constructors sort every glob result, so they give the
    same instance (or the same exception) on two file systems that differ
    only in the order in which [glob] lists the matches. *)
Theorem construction_ignores_glob_order {Image TState : Type}
    (fs1 fs2 : @FileSystem Image) (root split pass_name : string)
    (tr : option (@transform_fn Image TState)) :
  (forall p, Permutation (glob fs1 p) (glob fs2 p)) ->
  (forall p, os_listdir fs1 p = os_listdir fs2 p) ->
  (forall p, os_path_exists fs1 p = os_path_exists fs2 p) ->
  (forall p, int_lines fs1 p = int_lines fs2 p) ->
  new_Sintel fs1 root split pass_name tr = new_Sintel fs2 root split pass_name tr
  /\ new_KittiFlow fs1 root split tr = new_KittiFlow fs2 root split tr
  /\ new_FlyingChairs fs1 root split tr = new_FlyingChairs fs2 root split tr.
Proof.
  intros Hglob Hdirs Hexists Hlines.
  assert (Hs : forall p, sorted (glob fs1 p) = sorted (glob fs2 p)).
  { intros p. apply sorted_of_permutation, Hglob. }
  split; [|split].
  - rewrite !Sintel_new_unfold. unfold Sintel_scenes. rewrite Hdirs.
    destruct (verify_str_arg split _ _); [|reflexivity].
    destruct (verify_str_arg pass_name _ _); [|reflexivity].
    destruct (os_listdir fs2 _) as [scenes|e]; [|reflexivity].
    f_equal. unfold Sintel_built. f_equal.
    + destruct (split =? "train")%string; [|reflexivity].
      apply flat_map_ext. intros scene. apply Hs.
    + apply flat_map_ext. intros scene.
      unfold Sintel_frames, Sintel_png. now rewrite Hs.
  - rewrite !KittiFlow_new_unfold. unfold Kitti_built, Kitti_glob.
    now rewrite !Hs.
  - rewrite !FC_new_unfold. unfold FC_flows, FC_images.
    now rewrite !Hs, Hexists, Hlines.
Qed.

(** * The properties on the example roots *)

Example sintel_train_lists :
  _image_list sintel_train
  = [["data/Sintel/training/clean/alley_1/frame_0001.png";
      "data/Sintel/training/clean/alley_1/frame_0002.png"];
     ["data/Sintel/training/clean/alley_1/frame_0002.png";
      "data/Sintel/training/clean/alley_1/frame_0003.png"]]
  /\ _flow_list sintel_train
     = ["data/Sintel/training/flow/alley_1/frame_0001.flo";
        "data/Sintel/training/flow/alley_1/frame_0002.flo"].
Proof. split; reflexivity. Qed.

Example sintel_train_get :
  get (mount disk_sintel) sintel_train tt 0
  = Ok (VTuple
          [VImage "data/Sintel/training/clean/alley_1/frame_0001.png";
           VImage "data/Sintel/training/clean/alley_1/frame_0002.png";
           VArray {| shape := [2; 1; 1]; data := [1065353216; 3221225472] |}]).
Proof. vm_compute. reflexivity. Qed.

Example kitti_train_get :
  get (mount disk_kitti) kitti_train tt 0
  = Ok (VTuple
          [VImage "data/Kitti/training/image_2/000000_10.png";
           VImage "data/Kitti/training/image_2/000000_11.png";
           VArray {| shape := [2; 1; 2];
                     data := [1065353216; 0; 3221225472; 3288334336] |};
           VArray {| shape := [1; 2]; data := [1065353216; 0] |}]).
Proof. vm_compute. reflexivity. Qed.

Example chairs_train_lists :
  new_FlyingChairs (mount disk_chairs) "data" "train" None = Ok chairs_train
  /\ _flow_list chairs_train = ["data/FlyingChairs/data/00001_flow.flo"]
  /\ _image_list chairs_train
     = [["data/FlyingChairs/data/00001_img1.ppm";
         "data/FlyingChairs/data/00001_img2.ppm"]].
Proof. repeat split; vm_compute; reflexivity. Qed.

(** C1, as stated, fails: a Sintel scene with three frames and one flow
    file gives two image pairs and one flow path. *)
Lemma paired_invariant_counterexample :
  exists d : @FlowDataset string unit,
    new_Sintel (mount disk_sintel_missing_flow) "data" "train" "clean" None = Ok d
    /\ List.length (_image_list d) = 2%nat
    /\ List.length (_flow_list d) = 1%nat
    /\ ~ paired d.
Proof.
  eexists. split; [vm_compute; reflexivity|].
  split; [reflexivity|]. split; [reflexivity|].
  intros [H|H]; vm_compute in H; discriminate.
Qed.

Lemma paired_invariant_witness :
  well_paired (mount disk_sintel) sintel_train
  /\ paired sintel_train
  /\ fst (snd (FlowDataset___getitem__ (mount disk_sintel) 1 (sintel_train, tt)))
     = sintel_train.
Proof.
  assert (W : well_paired (mount disk_sintel) sintel_train).
  { apply (wp_Sintel_train (mount disk_sintel) "data" "clean" None ["alley_1"]).
    - reflexivity.
    - intros scene [<-|[]]. vm_compute. reflexivity.
    - vm_compute. reflexivity. }
  split; [exact W|].
  destruct (paired_invariant (mount disk_sintel) sintel_train tt 1 W) as [Hp [_ [Hg _]]].
  split; [exact Hp|exact Hg].
Defined.

(** C2: the mask the reader gives for a third-channel sample 2 is the
    float32 2.0, which is neither 0 nor 1. *)
Theorem png_valid_not_boolean :
  @_read_16bits_png_with_flow_and_valid_mask string (mount disk_kitti) "data/mask_2.png"
  = Ok (VTuple [VArray {| shape := [2; 1; 1]; data := [0; 0] |};
                VArray {| shape := [1; 1]; data := [1073741824] |}])
  /\ f32_is 1073741824 2
  /\ ~ f32_is 1073741824 0
  /\ ~ f32_is 1073741824 1.
Proof.
  split; [vm_compute; reflexivity|].
  split; [apply f32_isb_sound; vm_compute; reflexivity|].
  split; intros [v [Hv Hq]]; vm_compute in Hv; injection Hv as <-;
    vm_compute in Hq; discriminate.
Qed.

Lemma read_flo_bad_magic_witness :
  open_rb (mount disk_sintel) "data/stray.flo"
  = Ok (x51 :: x49 :: x45 :: x48 :: skipn 4 flo_bad_magic)
  /\ Float32.eqb Float32.f202021_25 (Float32.of_bits (le32 x51 x49 x45 x48)) = false
  /\ @_read_flo string (mount disk_sintel) "data/stray.flo"
     = Raise (ValueError "Magic number incorrect. Invalid .flo file").
Proof.
  split; [reflexivity|]. split; [vm_compute; reflexivity|].
  apply (read_flo_bad_magic (mount disk_sintel) "data/stray.flo" x51 x49 x45 x48
           (skipn 4 flo_bad_magic)).
  - reflexivity.
  - vm_compute. reflexivity.
Defined.

Lemma getitem_arity_witness :
  built_by (mount disk_kitti) KittiFlow kitti_train
  /\ get (mount disk_kitti) kitti_train tt 0
     = Ok (VTuple
             [VImage "data/Kitti/training/image_2/000000_10.png";
              VImage "data/Kitti/training/image_2/000000_11.png";
              VArray {| shape := [2; 1; 2];
                        data := [1065353216; 0; 3221225472; 3288334336] |};
              VArray {| shape := [1; 2]; data := [1065353216; 0] |}])
  /\ exists img1 img2 flow valid,
       VTuple
         [VImage "data/Kitti/training/image_2/000000_10.png";
          VImage "data/Kitti/training/image_2/000000_11.png";
          VArray {| shape := [2; 1; 2];
                    data := [1065353216; 0; 3221225472; 3288334336] |};
          VArray {| shape := [1; 2]; data := [1065353216; 0] |}]
       = VTuple [img1; img2; flow; valid].
Proof.
  assert (B : built_by (mount disk_kitti) KittiFlow kitti_train).
  { apply (built_KittiFlow (mount disk_kitti) "data" "train" None).
    vm_compute. reflexivity. }
  split; [exact B|]. split; [exact kitti_train_get|].
  exact (proj2 (getitem_arity (mount disk_kitti) KittiFlow kitti_train tt 0 _ B
                  kitti_train_get)).
Defined.

Lemma KittiFlow_missing_or_size_witness :
  ("train" = "train" \/ "train" = "test")
  /\ exists d : @FlowDataset string unit,
       new_KittiFlow (mount disk_kitti) "data" "train" None = Ok d
       /\ size d tt = Ok 1.
Proof.
  split; [left; reflexivity|].
  destruct (KittiFlow_missing_or_size (TState := unit) (mount disk_kitti)
              "data" "train" None (or_introl eq_refl)) as [_ H].
  destruct H as [d [Hd [_ Hs]]].
  - vm_compute. discriminate.
  - vm_compute. discriminate.
  - exists d. split; [exact Hd|]. apply Hs. vm_compute. lia.
Defined.

(** C6, as stated, fails: with two flow files and a split file of three
    entries [1; 2; 1], "train" keeps one entry while the split file holds
    two entries equal to 1. *)
Lemma FlyingChairs_split_filter_counterexample :
  new_FlyingChairs (mount disk_chairs) "data" "train" None = Ok chairs_train
  /\ int_lines (mount disk_chairs) (FC_split_file "data") = Ok [1; 2; 1]
  /\ len (_image_list chairs_train) = 1
  /\ len (filter (split_wanted "train") [1; 2; 1]) = 2
  /\ len (_image_list chairs_train) <> len (filter (split_wanted "train") [1; 2; 1]).
Proof. repeat split; vm_compute; (reflexivity || discriminate). Qed.

Lemma FlyingChairs_split_filter_witness :
  int_lines (mount disk_chairs) (FC_split_file "data") = Ok [1; 2; 1]
  /\ new_FlyingChairs (mount disk_chairs) "data" "train" None = Ok chairs_train
  /\ _flow_list chairs_train
     = map (fun i => nth i (FC_flows (mount disk_chairs) "data") EmptyString)
         (kept "train" [1; 2; 1] 2)
  /\ len (_image_list chairs_train)
     = len (filter (split_wanted "train") (firstn 2 [1; 2; 1])).
Proof.
  assert (H1 : int_lines (mount disk_chairs) (FC_split_file "data") = Ok [1; 2; 1])
    by reflexivity.
  assert (H2 : new_FlyingChairs (mount disk_chairs) "data" "train" None = Ok chairs_train)
    by (vm_compute; reflexivity).
  split; [exact H1|]. split; [exact H2|].
  destruct (FlyingChairs_split_filter (mount disk_chairs) "data" "train" None
              [1; 2; 1] chairs_train H1 H2) as [Hf [_ [_ [_ [_ Hc]]]]].
  split; [exact Hf|exact Hc].
Defined.

(** C7, as stated, fails: a scene directory with no frame gives no pair,
    not [0 - 1] pairs. *)
Lemma Sintel_pairing_counterexample :
  exists d : @FlowDataset string unit,
    new_Sintel (mount disk_empty_scene) "data" "train" "clean" None = Ok d
    /\ Sintel_scenes (mount disk_empty_scene) "data" "train" "clean" = Ok ["alley_1"]
    /\ size d tt = Ok 0
    /\ sum_Z (map (fun scene =>
                len (Sintel_frames (mount disk_empty_scene) "data" "train" "clean" scene) - 1)
             ["alley_1"]) = -1
    /\ size d tt
       <> Ok (sum_Z (map (fun scene =>
                 len (Sintel_frames (mount disk_empty_scene) "data" "train" "clean" scene) - 1)
               ["alley_1"])).
Proof. eexists. repeat split; vm_compute; (reflexivity || discriminate). Qed.

Lemma Sintel_pairing_witness :
  ("train" = "train" \/ "train" = "test")
  /\ ("clean" = "clean" \/ "clean" = "final")
  /\ Sintel_scenes (mount disk_sintel) "data" "train" "clean" = Ok ["alley_1"]
  /\ exists d : @FlowDataset string unit,
       new_Sintel (mount disk_sintel) "data" "train" "clean" None = Ok d
       /\ size d tt = Ok 2.
Proof.
  split; [left; reflexivity|]. split; [left; reflexivity|]. split; [reflexivity|].
  destruct (Sintel_pairing (TState := unit) (mount disk_sintel) "data" "train" "clean" None
              ["alley_1"] (or_introl eq_refl) (or_introl eq_refl) eq_refl)
    as [d [Hd [_ [_ Hs]]]].
  exists d. split; [exact Hd|]. rewrite Hs. vm_compute. reflexivity.
Defined.

Lemma png_flow_exact_witness :
  _read_png_16 (mount disk_kitti) "data/Kitti/training/flow_occ/000000_10.png" = Ok png_1x2
  /\ (3 <= channels png_1x2)%nat
  /\ Forall (fun raw => 0 <= raw < 65536) (pixels png_1x2)
  /\ exists flow valid,
       @_read_16bits_png_with_flow_and_valid_mask string (mount disk_kitti)
         "data/Kitti/training/flow_occ/000000_10.png"
       = Ok (VTuple [VArray flow; VArray valid])
       /\ Forall2 (fun raw w => f32_is w (flow_of_raw raw))
            [32832; 32768; 32640; 0] (data flow).
Proof.
  assert (H1 : _read_png_16 (mount disk_kitti) "data/Kitti/training/flow_occ/000000_10.png"
               = Ok png_1x2) by reflexivity.
  assert (H2 : (3 <= channels png_1x2)%nat) by (simpl; lia).
  assert (H3 : Forall (fun raw => 0 <= raw < 65536) (pixels png_1x2))
    by (repeat constructor; simpl; lia).
  split; [exact H1|]. split; [exact H2|]. split; [exact H3|].
  destruct (png_flow_exact (mount disk_kitti) _ png_1x2 H1 H2 H3)
    as [flow [valid [Hr [_ Hf]]]].
  exists flow, valid. split; [exact Hr|exact Hf].
Defined.

Lemma getitem_deterministic_witness :
  transforms sintel_train = None
  /\ fst (FlowDataset___getitem__ (mount disk_sintel) 0 (sintel_train, tt))
     = fst (FlowDataset___getitem__ (mount disk_sintel) 0
              (snd (FlowDataset___getitem__ (mount disk_sintel) 0 (sintel_train, tt))))
  /\ snd (FlowDataset___getitem__ (mount disk_sintel) 0 (sintel_train, tt))
     = (sintel_train, tt).
Proof.
  split; [reflexivity|].
  destruct (getitem_deterministic (mount disk_sintel) sintel_train tt 0 eq_refl)
    as [H1 [H2 _]].
  split; [exact H1|exact H2].
Defined.

Lemma FlyingChairs_index_precondition_witness :
  ("train" = "train" \/ "train" = "val")
  /\ os_path_exists (mount disk_chairs) (FC_split_file "data") = true
  /\ int_lines (mount disk_chairs) (FC_split_file "data") = Ok [1; 2; 1]
  /\ FC_indexable "train" [1; 2; 1]
       (FC_flows (mount disk_chairs) "data") (FC_images (mount disk_chairs) "data").
Proof.
  split; [left; reflexivity|]. split; [reflexivity|]. split; [reflexivity|].
  destruct (FlyingChairs_index_precondition (TState := unit) (mount disk_chairs)
              "data" "train" None [1; 2; 1] (or_introl eq_refl) eq_refl eq_refl)
    as [H _].
  apply (H chairs_train). vm_compute. reflexivity.
Defined.

(** * The further properties on the example roots *)

Lemma flo_1x1_layout : flo_layout flo_1x1 1 1 (skipn 12 flo_1x1).
Proof.
  exists x50, x49, x45, x48, x01, x00, x00, x00, x01, x00, x00, x00.
  repeat split; reflexivity.
Qed.


Lemma read_flo_well_formed_witness :
  open_rb (mount disk_sintel) "data/Sintel/training/flow/alley_1/frame_0001.flo"
  = Ok flo_1x1
  /\ flo_layout flo_1x1 1 1 (skipn 12 flo_1x1)
  /\ 8 * 1 * 1 <= len (skipn 12 flo_1x1)
  /\ exists a,
       @_read_flo string (mount disk_sintel)
         "data/Sintel/training/flow/alley_1/frame_0001.flo" = Ok (VArray a)
       /\ shape a = [2; 1; 1].
Proof.
  assert (H1 : open_rb (mount disk_sintel)
                 "data/Sintel/training/flow/alley_1/frame_0001.flo" = Ok flo_1x1)
    by reflexivity.
  assert (H2 : 8 * 1 * 1 <= len (skipn 12 flo_1x1)) by (vm_compute; discriminate).
  split; [exact H1|]. split; [exact flo_1x1_layout|]. split; [exact H2|].
  destruct (read_flo_well_formed (mount disk_sintel) _ flo_1x1 1 1 (skipn 12 flo_1x1)
              H1 flo_1x1_layout ltac:(lia) ltac:(lia) H2) as [a [Ha [Hs _]]].
  exists a. split; [exact Ha|exact Hs].
Defined.


Lemma read_flo_short_header_witness :
  open_rb (mount disk_more) "data/short.flo" = Ok flo_short
  /\ (List.length flo_short < 12)%nat
  /\ exists e, @_read_flo string (mount disk_more) "data/short.flo" = Raise e.
Proof.
  assert (H1 : open_rb (mount disk_more) "data/short.flo" = Ok flo_short) by reflexivity.
  assert (H2 : (List.length flo_short < 12)%nat) by (simpl; lia).
  split; [exact H1|]. split; [exact H2|].
  exact (read_flo_short_header (mount disk_more) _ flo_short H1 H2).
Defined.

Lemma png_valid_is_raw_witness :
  _read_png_16 (mount disk_kitti) "data/Kitti/training/flow_occ/000000_10.png" = Ok png_1x2
  /\ (3 <= channels png_1x2)%nat
  /\ Forall (fun raw => 0 <= raw < 65536) (pixels png_1x2)
  /\ exists flow valid,
       @_read_16bits_png_with_flow_and_valid_mask string (mount disk_kitti)
         "data/Kitti/training/flow_occ/000000_10.png"
       = Ok (VTuple [VArray flow; VArray valid])
       /\ Forall2 (fun raw w => f32_is w (inject_Z raw)) [1; 0] (data valid).
Proof.
  assert (H1 : _read_png_16 (mount disk_kitti) "data/Kitti/training/flow_occ/000000_10.png"
               = Ok png_1x2) by reflexivity.
  assert (H2 : (3 <= channels png_1x2)%nat) by (simpl; lia).
  assert (H3 : Forall (fun raw => 0 <= raw < 65536) (pixels png_1x2))
    by (repeat constructor; simpl; lia).
  split; [exact H1|]. split; [exact H2|]. split; [exact H3|].
  destruct (png_valid_is_raw (mount disk_kitti) _ png_1x2 H1 H2 H3)
    as [flow [valid [Hr [_ Hf]]]].
  exists flow, valid. split; [exact Hr|exact Hf].
Defined.

Lemma png_without_mask_channel_witness :
  _read_png_16 (mount disk_more) "data/gray.png" = Ok png_gray
  /\ (channels png_gray < 3)%nat
  /\ is_IndexError
       (@_read_16bits_png_with_flow_and_valid_mask string (mount disk_more) "data/gray.png").
Proof.
  assert (H1 : _read_png_16 (mount disk_more) "data/gray.png" = Ok png_gray) by reflexivity.
  assert (H2 : (channels png_gray < 3)%nat) by (simpl; lia).
  split; [exact H1|]. split; [exact H2|].
  exact (png_without_mask_channel (mount disk_more) _ png_gray H1 H2).
Defined.

Lemma getitem_index_out_of_range_witness :
  (2 < - len (_image_list sintel_train) \/ len (_image_list sintel_train) <= 2)
  /\ FlowDataset___getitem__ (mount disk_sintel) 2 (sintel_train, tt)
     = (Raise (IndexError "list index out of range"), (sintel_train, tt)).
Proof.
  assert (H : 2 < - len (_image_list sintel_train) \/ len (_image_list sintel_train) <= 2).
  { right. vm_compute. discriminate. }
  split; [exact H|].
  exact (getitem_index_out_of_range (mount disk_sintel) sintel_train tt 2 H).
Defined.

Lemma getitem_negative_index_witness :
  paired sintel_train
  /\ - len (_image_list sintel_train) <= -1 < 0
  /\ FlowDataset___getitem__ (mount disk_sintel) (-1) (sintel_train, tt)
     = FlowDataset___getitem__ (mount disk_sintel) 1 (sintel_train, tt).
Proof.
  assert (H1 : paired sintel_train) by (right; reflexivity).
  assert (H2 : - len (_image_list sintel_train) <= -1 < 0) by (vm_compute; split; congruence).
  split; [exact H1|]. split; [exact H2|].
  exact (getitem_negative_index (mount disk_sintel) sintel_train tt (-1) H1 H2).
Defined.

Lemma get_reads_listed_files_witness :
  transforms sintel_train = None
  /\ nth_error (_image_list sintel_train) 1
     = Some ["data/Sintel/training/clean/alley_1/frame_0002.png";
             "data/Sintel/training/clean/alley_1/frame_0003.png"]
  /\ nth_error (_flow_list sintel_train) 1
     = Some "data/Sintel/training/flow/alley_1/frame_0002.flo"
  /\ get (mount disk_sintel) sintel_train tt 1
     = Ok (VTuple
             [VImage "data/Sintel/training/clean/alley_1/frame_0002.png";
              VImage "data/Sintel/training/clean/alley_1/frame_0003.png";
              VArray {| shape := [2; 1; 1]; data := [1065353216; 3221225472] |}]).
Proof.
  split; [reflexivity|]. split; [reflexivity|]. split; [reflexivity|].
  refine (proj1 (get_reads_listed_files (mount disk_sintel) sintel_train tt 1
                   "data/Sintel/training/clean/alley_1/frame_0002.png"
                   "data/Sintel/training/clean/alley_1/frame_0003.png"
                   "data/Sintel/training/flow/alley_1/frame_0002.flo"
                   "data/Sintel/training/clean/alley_1/frame_0002.png"
                   "data/Sintel/training/clean/alley_1/frame_0003.png"
                   (VArray {| shape := [2; 1; 1]; data := [1065353216; 3221225472] |})
                   eq_refl eq_refl eq_refl eq_refl eq_refl _) eq_refl).
  vm_compute. reflexivity.
Defined.

Lemma getitem_flow_error_witness :
  nth_error (_flow_list sintel_stray) 0 = Some "data/stray.flo"
  /\ @_read_flow string (mount disk_sintel) (cls sintel_stray) "data/stray.flo"
     = Raise (ValueError "Magic number incorrect. Invalid .flo file")
  /\ FlowDataset___getitem__ (mount disk_sintel) 0 (sintel_stray, tt)
     = (Raise (ValueError "Magic number incorrect. Invalid .flo file"), (sintel_stray, tt)).
Proof.
  assert (He : @_read_flow string (mount disk_sintel) (cls sintel_stray) "data/stray.flo"
               = Raise (ValueError "Magic number incorrect. Invalid .flo file"))
    by (vm_compute; reflexivity).
  split; [reflexivity|]. split; [exact He|].
  exact (getitem_flow_error (mount disk_sintel) sintel_stray tt 0
           "data/Sintel/training/clean/alley_1/frame_0001.png"
           "data/Sintel/training/clean/alley_1/frame_0002.png"
           "data/stray.flo"
           "data/Sintel/training/clean/alley_1/frame_0001.png"
           "data/Sintel/training/clean/alley_1/frame_0002.png"
           _ eq_refl eq_refl eq_refl eq_refl He).
Defined.

Lemma getitem_applies_transform_witness :
  transforms (set_transforms (Some swap_images) sintel_train) = Some swap_images
  /\ FlowDataset___getitem__ (mount disk_sintel) 0
       (set_transforms (Some swap_images) sintel_train, tt)
     = (Ok (VTuple
              [VImage "data/Sintel/training/clean/alley_1/frame_0002.png";
               VImage "data/Sintel/training/clean/alley_1/frame_0001.png";
               VArray {| shape := [2; 1; 1]; data := [1065353216; 3221225472] |}]),
        (set_transforms (Some swap_images) sintel_train, tt)).
Proof.
  split; [reflexivity|].
  refine (getitem_applies_transform (mount disk_sintel)
            (set_transforms (Some swap_images) sintel_train) tt tt 0
            "data/Sintel/training/clean/alley_1/frame_0001.png"
            "data/Sintel/training/clean/alley_1/frame_0002.png"
            "data/Sintel/training/flow/alley_1/frame_0001.flo"
            "data/Sintel/training/clean/alley_1/frame_0001.png"
            "data/Sintel/training/clean/alley_1/frame_0002.png"
            (VArray {| shape := [2; 1; 1]; data := [1065353216; 3221225472] |})
            _ _ _ VNone swap_images
            eq_refl eq_refl eq_refl eq_refl eq_refl eq_refl _ eq_refl).
  vm_compute. reflexivity.
Defined.


Lemma image_pairs_have_two_paths_witness :
  built_by (mount disk_kitti) KittiFlow kitti_train
  /\ (0 < List.length (_image_list kitti_train))%nat
  /\ exists a b, list_getitem (_image_list kitti_train) (Z.of_nat 0) = Ok [a; b].
Proof.
  assert (B : built_by (mount disk_kitti) KittiFlow kitti_train).
  { apply (built_KittiFlow (mount disk_kitti) "data" "train" None).
    vm_compute. reflexivity. }
  assert (H : (0 < List.length (_image_list kitti_train))%nat) by (vm_compute; lia).
  split; [exact B|]. split; [exact H|].
  destruct (image_pairs_have_two_paths (mount disk_kitti) KittiFlow kitti_train 0 B H)
    as [a [b [Hab _]]].
  exists a, b. exact Hab.
Defined.

Lemma get_test_split_witness :
  new_KittiFlow (mount disk_more) "data" "test" None = Ok kitti_test
  /\ (1 < List.length (_image_list kitti_test))%nat
  /\ get (mount disk_more) kitti_test tt 1
     = Ok (VTuple [VImage "data/Kitti/testing/image_2/000001_10.png";
                   VImage "data/Kitti/testing/image_2/000001_11.png";
                   VNone; VNone]).
Proof.
  assert (H1 : new_KittiFlow (mount disk_more) "data" "test" None = Ok kitti_test)
    by (vm_compute; reflexivity).
  assert (H2 : (1 < List.length (_image_list kitti_test))%nat) by (vm_compute; lia).
  split; [exact H1|]. split; [exact H2|].
  destruct (get_test_split (mount disk_more) "data" "clean" kitti_test tt 1
              (or_intror H1) H2) as [a [b [Hab Hget]]].
  vm_compute in Hab. injection Hab as <- <-.
  exact (Hget _ _ eq_refl eq_refl).
Defined.

Lemma KittiFlow_pairing_witness :
  ("train" = "train" \/ "train" = "test")
  /\ Kitti_glob (mount disk_kitti) "data" "train" "image_2" "*_10.png" <> []
  /\ Kitti_glob (mount disk_kitti) "data" "train" "image_2" "*_11.png" <> []
  /\ exists d : @FlowDataset string unit,
       new_KittiFlow (mount disk_kitti) "data" "train" None = Ok d
       /\ List.length (_image_list d) = 1%nat.
Proof.
  assert (N1 : Kitti_glob (mount disk_kitti) "data" "train" "image_2" "*_10.png" <> [])
    by (vm_compute; discriminate).
  assert (N2 : Kitti_glob (mount disk_kitti) "data" "train" "image_2" "*_11.png" <> [])
    by (vm_compute; discriminate).
  split; [left; reflexivity|]. split; [exact N1|]. split; [exact N2|].
  destruct (KittiFlow_pairing (TState := unit) (mount disk_kitti) "data" "train" None
              (or_introl eq_refl) N1 N2) as [d [Hd [Hlen _]]].
  exists d. split; [exact Hd|]. rewrite Hlen. vm_compute. reflexivity.
Defined.

Lemma FlyingChairs_missing_split_file_witness :
  ("train" = "train" \/ "train" = "val")
  /\ os_path_exists (mount disk_kitti)
       ("data" // "FlyingChairs" // "FlyingChairs_train_val.txt") = false
  /\ exists msg,
       @new_FlyingChairs string unit (mount disk_kitti) "data" "train" None
       = Raise (FileNotFoundError msg).
Proof.
  split; [left; reflexivity|]. split; [reflexivity|].
  exact (FlyingChairs_missing_split_file (TState := unit) (mount disk_kitti)
           "data" "train" None (or_introl eq_refl) eq_refl).
Defined.

Lemma FlyingChairs_train_val_partition_witness :
  int_lines (mount disk_chairs) (FC_split_file "data") = Ok [1; 2; 1]
  /\ new_FlyingChairs (mount disk_chairs) "data" "train" None = Ok chairs_train
  /\ new_FlyingChairs (mount disk_chairs) "data" "val" None = Ok chairs_val
  /\ (List.length (_image_list chairs_train) + List.length (_image_list chairs_val)
      = List.length (FC_flows (mount disk_chairs) "data"))%nat.
Proof.
  assert (H1 : int_lines (mount disk_chairs) (FC_split_file "data") = Ok [1; 2; 1])
    by reflexivity.
  assert (H2 : new_FlyingChairs (mount disk_chairs) "data" "train" None = Ok chairs_train)
    by (vm_compute; reflexivity).
  assert (H3 : new_FlyingChairs (mount disk_chairs) "data" "val" None = Ok chairs_val)
    by (vm_compute; reflexivity).
  split; [exact H1|]. split; [exact H2|]. split; [exact H3|].
  destruct (FlyingChairs_train_val_partition (mount disk_chairs) "data" None [1; 2; 1]
              chairs_train chairs_val H1 H2 H3) as [_ [_ [_ [_ Heq]]]].
  apply Heq. intros i Hi.
  assert (Hi2 : (i < 2)%nat) by exact Hi.
  destruct i as [|[|i]]; [left; reflexivity|right; reflexivity|lia].
Defined.

Lemma Sintel_without_pairs_witness :
  ("train" = "train" \/ "train" = "test")
  /\ ("clean" = "clean" \/ "clean" = "final")
  /\ Sintel_scenes (mount disk_empty_scene) "data" "train" "clean" = Ok ["alley_1"]
  /\ exists d : @FlowDataset string unit,
       new_Sintel (mount disk_empty_scene) "data" "train" "clean" None = Ok d
       /\ size d tt = Ok 0.
Proof.
  split; [left; reflexivity|]. split; [left; reflexivity|]. split; [reflexivity|].
  destruct (Sintel_without_pairs (TState := unit) (mount disk_empty_scene)
              "data" "train" "clean" None ["alley_1"]
              (or_introl eq_refl) (or_introl eq_refl) eq_refl)
    as [d [Hd [_ Hs]]].
  - intros scene [<-|[]]. vm_compute. lia.
  - exists d. split; [exact Hd|apply Hs].
Defined.

Lemma construction_ignores_glob_order_witness :
  (forall p, Permutation (glob (mount disk_sintel) p)
               (glob (reversed_globs (mount disk_sintel)) p))
  /\ @new_Sintel string unit (reversed_globs (mount disk_sintel)) "data" "train" "clean" None
     = Ok sintel_train.
Proof.
  assert (H : forall p, Permutation (glob (mount disk_sintel) p)
                          (glob (reversed_globs (mount disk_sintel)) p)).
  { intros p. apply Permutation_rev. }
  split; [exact H|].
  destruct (construction_ignores_glob_order (TState := unit) (mount disk_sintel)
              (reversed_globs (mount disk_sintel)) "data" "train" "clean" None
              H (fun _ => eq_refl) (fun _ => eq_refl) (fun _ => eq_refl)) as [Hs _].
  rewrite <- Hs. vm_compute. reflexivity.
Defined.

Lemma getitem_missing_flow_witness :
  new_Sintel (mount disk_sintel_missing_flow) "data" "train" "clean" None
  = Ok sintel_missing_flow
  /\ _flow_list sintel_missing_flow <> []
  /\ (List.length (_flow_list sintel_missing_flow) <= 1)%nat
  /\ FlowDataset___getitem__ (mount disk_sintel_missing_flow) 1 (sintel_missing_flow, tt)
     = (Raise (IndexError "list index out of range"), (sintel_missing_flow, tt)).
Proof.
  assert (H1 : _flow_list sintel_missing_flow <> []) by (vm_compute; discriminate).
  assert (H2 : (List.length (_flow_list sintel_missing_flow) <= 1)%nat)
    by (vm_compute; lia).
  split; [vm_compute; reflexivity|]. split; [exact H1|]. split; [exact H2|].
  exact (getitem_missing_flow (mount disk_sintel_missing_flow) sintel_missing_flow tt 1
           "data/Sintel/training/clean/alley_1/frame_0002.png"
           "data/Sintel/training/clean/alley_1/frame_0003.png"
           "data/Sintel/training/clean/alley_1/frame_0002.png"
           "data/Sintel/training/clean/alley_1/frame_0003.png"
           eq_refl eq_refl eq_refl H1 H2).
Defined.
